(** * FinancialFlow: the ledger logic of [components-finance-tracker.tsx]

    A shallow embedding of the state handling of the [FinanceTracker]
    component: the validators, the health score, the onboarding, add and
    delete handlers, and the export / import of the state document.

    Conventions of the embedding.
    - A string is the sequence of bytes of its UTF-8 encoding.
    - The handlers are transcribed with a JavaScript [number] as an exact
      rational ([Qc], canonical fractions, so that equality is plain [=]).
      Rounding, [NaN], the infinities and the sign of zero are outside that
      transcription.
    - Where a property turns on them (overflow in the health score, the
      writing of numbers in JSON), the code is transcribed over the
      binary64 numbers themselves, in the module [Double].
    - React state is a record [State]; a handler is a function on [World],
      the state together with the calls made to [localStorage.setItem],
      [toast] and the download link.  A handler's closure sees the state of
      the render it was created in, the state it is applied to here.
    - [new Date()] enters as the argument [today]. *)

From Stdlib Require Import ZArith QArith Qcanon List String Ascii Bool Lia Lqa.
From Stdlib Require PrimFloat FloatClass SpecFloat FloatOps FloatAxioms.
Import ListNotations.

Local Open Scope string_scope.
Local Open Scope Qc_scope.

(** ** Numbers *)

Abbreviation number := Qc (only parsing).

Definition num (z : Z) : number := Q2Qc (inject_Z z).

Definition num_eqb (x y : number) : bool := Qeq_bool x y.

Definition num_ltb (x y : number) : bool :=
  match x ?= y with Lt => true | _ => false end.

Definition num_leb (x y : number) : bool :=
  match x ?= y with Gt => false | _ => true end.

(** [Math.max] and [Math.min] at two arguments. *)
Definition Math_max (a b : number) : number := if num_ltb a b then b else a.
Definition Math_min (a b : number) : number := if num_ltb b a then b else a.

(** ** Strings, the numeric pattern and [parseFloat] *)

Definition is_digit (c : ascii) : bool :=
  let n := nat_of_ascii c in (48 <=? n)%nat && (n <=? 57)%nat.

Definition digit_value (c : ascii) : Z := Z.of_nat (nat_of_ascii c) - 48.

(** The longest prefix of digits, and what follows it. *)
Fixpoint span_digits (l : list ascii) : list ascii * list ascii :=
  match l with
  | c :: r =>
      if is_digit c
      then let (ds, rest) := span_digits r in (c :: ds, rest)
      else ([], l)
  | [] => ([], [])
  end.

Fixpoint digits_value (acc : Z) (l : list ascii) : Z :=
  match l with
  | [] => acc
  | c :: r => digits_value (10 * acc + digit_value c) r
  end.

Definition is_nil {A} (l : list A) : bool :=
  match l with [] => true | _ => false end.

(** A string of the shape [digits] or [digits.digits] with nothing after
    it, cut at the point: the integer digits and, when there is a point,
    the digits after it.  [None] for every other string. *)
Definition decimal_parts (s : string)
  : option (list ascii * option (list ascii)) :=
  let (ip, rest) := span_digits (list_ascii_of_string s) in
  if is_nil ip then None
  else match rest with
       | [] => Some (ip, None)
       | c :: f =>
           if Ascii.eqb c "."
           then let (fp, tail) := span_digits f in
                if is_nil tail then Some (ip, Some fp) else None
           else None
       end.

(** The regular expression [/^\d+(\.\d{1,2})?$/]. *)
Definition number_pattern (s : string) : bool :=
  match decimal_parts s with
  | Some (_, None) => true
  | Some (_, Some fp) => (1 <=? List.length fp)%nat && (List.length fp <=? 2)%nat
  | None => false
  end.

(** [parseFloat] on the strings its callers hand it: both call it behind
    [number_pattern], where the decimal literal is the whole string and its
    value is the decimal fraction it denotes.  [None] is [NaN]. *)
Definition parseFloat (s : string) : option number :=
  match decimal_parts s with
  | Some (ip, None) => Some (num (digits_value 0 ip))
  | Some (ip, Some fp) =>
      Some (num (digits_value 0 (ip ++ fp)%list)
            / num (10 ^ Z.of_nat (List.length fp)))
  | None => None
  end.

(** [x >= 0] where [x] may be [NaN]: every comparison with [NaN] is false. *)
Definition ge0 (x : option number) : bool :=
  match x with Some v => num_leb 0 v | None => false end.

(** const validateNumber = (value: string): boolean =>
      /^\d+(\.\d{1,2})?$/.test(value) && parseFloat(value) >= 0 *)
Definition validateNumber (value : string) : bool :=
  number_pattern value && ge0 (parseFloat value).

(** The code points of a string; [None] where its bytes are not the UTF-8
    encoding of any. *)
Definition continuation (c : ascii) : option N :=
  let n := N_of_ascii c in
  if (128 <=? n)%N && (n <? 192)%N then Some (n - 128)%N else None.

Fixpoint code_points (l : list ascii) : option (list N) :=
  match l with
  | [] => Some []
  | b0 :: r0 =>
      let n0 := N_of_ascii b0 in
      if (n0 <? 128)%N then option_map (cons n0) (code_points r0)
      else if (n0 <? 192)%N then None
      else if (n0 <? 224)%N then
        match r0 with
        | b1 :: r1 =>
            match continuation b1 with
            | Some c1 =>
                let cp := ((n0 - 192) * 64 + c1)%N in
                if (128 <=? cp)%N
                then option_map (cons cp) (code_points r1)
                else None
            | None => None
            end
        | _ => None
        end
      else if (n0 <? 240)%N then
        match r0 with
        | b1 :: b2 :: r2 =>
            match continuation b1, continuation b2 with
            | Some c1, Some c2 =>
                let cp := ((n0 - 224) * 4096 + c1 * 64 + c2)%N in
                if (2048 <=? cp)%N
                   && negb ((55296 <=? cp)%N && (cp <? 57344)%N)
                then option_map (cons cp) (code_points r2)
                else None
            | _, _ => None
            end
        | _ => None
        end
      else if (n0 <? 248)%N then
        match r0 with
        | b1 :: b2 :: b3 :: r3 =>
            match continuation b1, continuation b2, continuation b3 with
            | Some c1, Some c2, Some c3 =>
                let cp :=
                  ((n0 - 240) * 262144 + c1 * 4096 + c2 * 64 + c3)%N in
                if (65536 <=? cp)%N && (cp <=? 1114111)%N
                then option_map (cons cp) (code_points r3)
                else None
            | _, _, _ => None
            end
        | _ => None
        end
      else None
  end.

(** The UTF-16 code units of a JavaScript string, which are what a regular
    expression without the [u] flag matches one at a time. *)
Definition code_units (l : list N) : list N :=
  flat_map (fun cp =>
              if (cp <? 65536)%N then [cp]
              else [(55296 + (cp - 65536) / 1024)%N;
                    (56320 + (cp - 65536) mod 1024)%N])
           l.

(** The class [\s]: the white space and the line terminators of
    ECMAScript. *)
Definition is_white_space (u : N) : bool :=
  ((9 <=? u)%N && (u <=? 13)%N) || (u =? 32)%N || (u =? 160)%N
  || (u =? 5760)%N || ((8192 <=? u)%N && (u <=? 8202)%N)
  || (u =? 8232)%N || (u =? 8233)%N || (u =? 8239)%N || (u =? 8287)%N
  || (u =? 12288)%N || (u =? 65279)%N.

(** The class [[a-zA-Z\s]]. *)
Definition is_letter_or_space (u : N) : bool :=
  ((65 <=? u)%N && (u <=? 90)%N) || ((97 <=? u)%N && (u <=? 122)%N)
  || is_white_space u.

(** const validateName = (value: string): boolean =>
      /^[a-zA-Z\s]{2,30}$/.test(value) *)
Definition validateName (value : string) : bool :=
  match code_points (list_ascii_of_string value) with
  | Some l =>
      let units := code_units l in
      forallb is_letter_or_space units
      && (2 <=? List.length units)%nat && (List.length units <=? 30)%nat
  | None => false
  end.

(** ** The health score *)

(** const calculateFinancialHealth = (income, expenses, savings,
    investments, debt): number *)
Definition calculateFinancialHealth
    (income expenses savings investments debt : number) : number :=
  if num_eqb income 0 then 0
  else
    let savingsRate := savings / income in
    let investmentRate := investments / income in
    let debtToIncomeRatio := debt / income in
    let expenseRatio := expenses / income in
    let score := 0 in
    let score := score + savingsRate * num 30 in
    let score := score + investmentRate * num 20 in
    let score := score + (1 - debtToIncomeRatio) * num 25 in
    let score := score + (1 - expenseRatio) * num 25 in
    Math_min (Math_max (score * num 100) 0) (num 100).

(** ** The data model (the interfaces of the source) *)

Inductive TransactionType := income_type | expense_type.
Inductive Account := chequing | savings.
Inductive InvestmentType := RRSP | TFSA | GIC | OSAP.

Module Transaction.
Record t := mk {
  id : number;
  date : string;
  description : string;
  amount : number;
  type : TransactionType;
  category : string;
  account : Account }.
End Transaction.

Module Goal.
Record t := mk {
  id : number;
  name : string;
  target : number;
  current : number;
  deadline : string }.
End Goal.

Module UserData.
Record t := mk {
  name : string;
  chequingBalance : string;
  savingsBalance : string;
  monthlyIncome : string;
  monthlyExpenses : string }.
End UserData.

(** [Partial<UserData>], the type of the [errors] state. *)
Module Errors.
Record t := mk {
  name : option string;
  chequingBalance : option string;
  savingsBalance : option string;
  monthlyIncome : option string;
  monthlyExpenses : option string }.
Definition none : t := mk None None None None None.
End Errors.

Module BudgetCategory.
Record t := mk { category : string; limit : number }.
End BudgetCategory.

Module Investment.
Record t := mk {
  id : number;
  type : InvestmentType;
  balance : number;
  interestRate : option number;
  maturityDate : option string }.
End Investment.

Module Cryptocurrency.
Record t := mk {
  id : number;
  name : string;
  symbol : string;
  amount : number;
  purchasePrice : number;
  currentPrice : number }.
End Cryptocurrency.

(** The object the [newTransaction] state holds: the entry form. *)
Module NewTransaction.
Record t := mk {
  description : string;
  amount : string;
  type : TransactionType;
  category : string;
  date : string;
  account : Account }.
End NewTransaction.

(** The optional [userData] object of [FinancialData]. *)
Module PartialUserData.
Record t := mk {
  name : option string;
  chequingBalance : option string;
  savingsBalance : option string;
  monthlyIncome : option string;
  monthlyExpenses : option string }.
End PartialUserData.

(** ** The component state: one field per [useState] of [FinanceTracker] *)

Record State := mkState {
  activeTab : string;
  chequingBalance : number;
  savingsBalance : number;
  income : number;
  expenses : number;
  transactions : list Transaction.t;
  goals : list Goal.t;
  newTransaction : NewTransaction.t;
  showQuestionnaire : bool;
  userData : UserData.t;
  errors : Errors.t;
  budgetCategories : list BudgetCategory.t;
  financialHealthScore : number;
  showSettings : bool;
  investments : list Investment.t;
  cryptocurrencies : list Cryptocurrency.t }.

(** The form as [useState] creates it and as [addTransaction] resets it. *)
Definition blank_form (today : string) : NewTransaction.t :=
  NewTransaction.mk "" "" expense_type "" today chequing.

(** The state of the first render. *)
Definition initial_state (today : string) : State :=
  {| activeTab := "dashboard";
     chequingBalance := 0; savingsBalance := 0; income := 0; expenses := 0;
     transactions := []; goals := [];
     newTransaction := blank_form today;
     showQuestionnaire := true;
     userData := UserData.mk "" "" "" "" "";
     errors := Errors.none;
     budgetCategories := [];
     financialHealthScore := 0;
     showSettings := false;
     investments := []; cryptocurrencies := [] |}.

(** *** The setters.  Each takes an updater, as [setX(prev => ...)] does;
    [setX(v)] is the constant updater. *)

Definition setChequingBalance (f : number -> number) (s : State) : State :=
  mkState (activeTab s) (f (chequingBalance s)) (savingsBalance s) (income s)
    (expenses s) (transactions s) (goals s) (newTransaction s)
    (showQuestionnaire s) (userData s) (errors s) (budgetCategories s)
    (financialHealthScore s) (showSettings s) (investments s)
    (cryptocurrencies s).

Definition setSavingsBalance (f : number -> number) (s : State) : State :=
  mkState (activeTab s) (chequingBalance s) (f (savingsBalance s)) (income s)
    (expenses s) (transactions s) (goals s) (newTransaction s)
    (showQuestionnaire s) (userData s) (errors s) (budgetCategories s)
    (financialHealthScore s) (showSettings s) (investments s)
    (cryptocurrencies s).

Definition setIncome (f : number -> number) (s : State) : State :=
  mkState (activeTab s) (chequingBalance s) (savingsBalance s) (f (income s))
    (expenses s) (transactions s) (goals s) (newTransaction s)
    (showQuestionnaire s) (userData s) (errors s) (budgetCategories s)
    (financialHealthScore s) (showSettings s) (investments s)
    (cryptocurrencies s).

Definition setExpenses (f : number -> number) (s : State) : State :=
  mkState (activeTab s) (chequingBalance s) (savingsBalance s) (income s)
    (f (expenses s)) (transactions s) (goals s) (newTransaction s)
    (showQuestionnaire s) (userData s) (errors s) (budgetCategories s)
    (financialHealthScore s) (showSettings s) (investments s)
    (cryptocurrencies s).

Definition setTransactions (v : list Transaction.t) (s : State) : State :=
  mkState (activeTab s) (chequingBalance s) (savingsBalance s) (income s)
    (expenses s) v (goals s) (newTransaction s)
    (showQuestionnaire s) (userData s) (errors s) (budgetCategories s)
    (financialHealthScore s) (showSettings s) (investments s)
    (cryptocurrencies s).

Definition setGoals (f : list Goal.t -> list Goal.t) (s : State) : State :=
  mkState (activeTab s) (chequingBalance s) (savingsBalance s) (income s)
    (expenses s) (transactions s) (f (goals s)) (newTransaction s)
    (showQuestionnaire s) (userData s) (errors s) (budgetCategories s)
    (financialHealthScore s) (showSettings s) (investments s)
    (cryptocurrencies s).

Definition setNewTransaction (v : NewTransaction.t) (s : State) : State :=
  mkState (activeTab s) (chequingBalance s) (savingsBalance s) (income s)
    (expenses s) (transactions s) (goals s) v
    (showQuestionnaire s) (userData s) (errors s) (budgetCategories s)
    (financialHealthScore s) (showSettings s) (investments s)
    (cryptocurrencies s).

Definition setShowQuestionnaire (v : bool) (s : State) : State :=
  mkState (activeTab s) (chequingBalance s) (savingsBalance s) (income s)
    (expenses s) (transactions s) (goals s) (newTransaction s)
    v (userData s) (errors s) (budgetCategories s)
    (financialHealthScore s) (showSettings s) (investments s)
    (cryptocurrencies s).

Definition setUserData (v : UserData.t) (s : State) : State :=
  mkState (activeTab s) (chequingBalance s) (savingsBalance s) (income s)
    (expenses s) (transactions s) (goals s) (newTransaction s)
    (showQuestionnaire s) v (errors s) (budgetCategories s)
    (financialHealthScore s) (showSettings s) (investments s)
    (cryptocurrencies s).

Definition setErrors (v : Errors.t) (s : State) : State :=
  mkState (activeTab s) (chequingBalance s) (savingsBalance s) (income s)
    (expenses s) (transactions s) (goals s) (newTransaction s)
    (showQuestionnaire s) (userData s) v (budgetCategories s)
    (financialHealthScore s) (showSettings s) (investments s)
    (cryptocurrencies s).

Definition setBudgetCategories (v : list BudgetCategory.t) (s : State)
  : State :=
  mkState (activeTab s) (chequingBalance s) (savingsBalance s) (income s)
    (expenses s) (transactions s) (goals s) (newTransaction s)
    (showQuestionnaire s) (userData s) (errors s) v
    (financialHealthScore s) (showSettings s) (investments s)
    (cryptocurrencies s).

Definition setFinancialHealthScore (v : number) (s : State) : State :=
  mkState (activeTab s) (chequingBalance s) (savingsBalance s) (income s)
    (expenses s) (transactions s) (goals s) (newTransaction s)
    (showQuestionnaire s) (userData s) (errors s) (budgetCategories s)
    v (showSettings s) (investments s)
    (cryptocurrencies s).

Definition setInvestments (v : list Investment.t) (s : State) : State :=
  mkState (activeTab s) (chequingBalance s) (savingsBalance s) (income s)
    (expenses s) (transactions s) (goals s) (newTransaction s)
    (showQuestionnaire s) (userData s) (errors s) (budgetCategories s)
    (financialHealthScore s) (showSettings s) v
    (cryptocurrencies s).

Definition setCryptocurrencies (v : list Cryptocurrency.t) (s : State)
  : State :=
  mkState (activeTab s) (chequingBalance s) (savingsBalance s) (income s)
    (expenses s) (transactions s) (goals s) (newTransaction s)
    (showQuestionnaire s) (userData s) (errors s) (budgetCategories s)
    (financialHealthScore s) (showSettings s) (investments s) v.

(** ** JSON documents

    [JSON.stringify] is the platform's.  The text it writes is modelled by
    the value the text denotes. *)

#[local] Set Warnings "-register-all".

Inductive JSON :=
| JNull
| JBool (b : bool)
| JNumber (n : number)
| JString (s : string)
| JArray (items : list JSON)
| JObject (members : list (string * JSON)).

(** A type of the source together with the JSON its values are written
    as. *)
Class Json (A : Type) := { toJSON : A -> JSON }.

#[export] Instance Json_number : Json number := {| toJSON := JNumber |}.

#[export] Instance Json_string : Json string := {| toJSON := JString |}.

#[export] Instance Json_list {A} `{Json A} : Json (list A) := {|
  toJSON l := JArray (map toJSON l) |}.

#[export] Instance Json_TransactionType : Json TransactionType := {|
  toJSON t := JString (match t with income_type => "income"
                                   | expense_type => "expense" end) |}.

#[export] Instance Json_Account : Json Account := {|
  toJSON a := JString (match a with chequing => "chequing"
                                   | savings => "savings" end) |}.

#[export] Instance Json_InvestmentType : Json InvestmentType := {|
  toJSON t := JString (match t with RRSP => "RRSP" | TFSA => "TFSA"
                                   | GIC => "GIC" | OSAP => "OSAP" end) |}.

(** [JSON.stringify] leaves out a property whose value is [undefined]. *)
Definition member_opt {A} `{Json A} (key : string) (x : option A)
  : list (string * JSON) :=
  match x with
  | Some a => [(key, toJSON a)]
  | None => []
  end.

#[export] Instance Json_Transaction : Json Transaction.t := {|
  toJSON t := JObject [
    ("id", toJSON (Transaction.id t));
    ("date", toJSON (Transaction.date t));
    ("description", toJSON (Transaction.description t));
    ("amount", toJSON (Transaction.amount t));
    ("type", toJSON (Transaction.type t));
    ("category", toJSON (Transaction.category t));
    ("account", toJSON (Transaction.account t))] |}.

#[export] Instance Json_Goal : Json Goal.t := {|
  toJSON g := JObject [
    ("id", toJSON (Goal.id g));
    ("name", toJSON (Goal.name g));
    ("target", toJSON (Goal.target g));
    ("current", toJSON (Goal.current g));
    ("deadline", toJSON (Goal.deadline g))] |}.

#[export] Instance Json_BudgetCategory : Json BudgetCategory.t := {|
  toJSON b := JObject [
    ("category", toJSON (BudgetCategory.category b));
    ("limit", toJSON (BudgetCategory.limit b))] |}.

#[export] Instance Json_Investment : Json Investment.t := {|
  toJSON x := JObject (
    [("id", toJSON (Investment.id x));
     ("type", toJSON (Investment.type x));
     ("balance", toJSON (Investment.balance x))]
    ++ member_opt "interestRate" (Investment.interestRate x)
    ++ member_opt "maturityDate" (Investment.maturityDate x))%list |}.

#[export] Instance Json_Cryptocurrency : Json Cryptocurrency.t := {|
  toJSON c := JObject [
    ("id", toJSON (Cryptocurrency.id c));
    ("name", toJSON (Cryptocurrency.name c));
    ("symbol", toJSON (Cryptocurrency.symbol c));
    ("amount", toJSON (Cryptocurrency.amount c));
    ("purchasePrice", toJSON (Cryptocurrency.purchasePrice c));
    ("currentPrice", toJSON (Cryptocurrency.currentPrice c))] |}.

#[export] Instance Json_UserData : Json UserData.t := {|
  toJSON u := JObject [
    ("name", toJSON (UserData.name u));
    ("chequingBalance", toJSON (UserData.chequingBalance u));
    ("savingsBalance", toJSON (UserData.savingsBalance u));
    ("monthlyIncome", toJSON (UserData.monthlyIncome u));
    ("monthlyExpenses", toJSON (UserData.monthlyExpenses u))] |}.

(** The object that [saveData] builds and stringifies. *)
Definition document (s : State) : JSON :=
  JObject [
    ("chequingBalance", toJSON (chequingBalance s));
    ("savingsBalance", toJSON (savingsBalance s));
    ("income", toJSON (income s));
    ("expenses", toJSON (expenses s));
    ("transactions", toJSON (transactions s));
    ("goals", toJSON (goals s));
    ("budgetCategories", toJSON (budgetCategories s));
    ("investments", toJSON (investments s));
    ("cryptocurrencies", toJSON (cryptocurrencies s));
    ("userData", toJSON (userData s));
    ("financialHealthScore", toJSON (financialHealthScore s))].

(** ** The world of a handler *)

Inductive ToastVariant := default_variant | destructive.

Record Toast := mkToast { toast_description : string; variant : ToastVariant }.

(** [ui] is the component state; the three logs record, most recent first,
    the documents given to [localStorage.setItem], the toasts raised and
    the documents offered for download. *)
Record World := mkWorld {
  ui : State;
  setItem_calls : list JSON;
  toast_calls : list Toast;
  download_calls : list JSON }.

Definition boot (today : string) : World := mkWorld (initial_state today) [] [] [].

(** A queued state update. *)
Definition update (f : State -> State) (w : World) : World :=
  mkWorld (f (ui w)) (setItem_calls w) (toast_calls w) (download_calls w).

Definition toast (description : string) (v : ToastVariant) (w : World)
  : World :=
  mkWorld (ui w) (setItem_calls w) (mkToast description v :: toast_calls w)
    (download_calls w).

(** const saveData: the state variables are those of the closure, the
    state [s] of the render in which the running handler was created. *)
Definition saveData (s : State) (w : World) : World :=
  mkWorld (ui w) (document s :: setItem_calls w) (toast_calls w)
    (download_calls w).

Notation "w |> f" := (f w) (at level 65, left associativity, only parsing).

(** The effect on [income, expenses, savingsBalance, chequingBalance,
    investments, cryptocurrencies]: run after a render in which one of them
    has changed. *)
Definition healthEffect (s : State) : State :=
  let totalInvestments :=
    fold_left (fun sum inv => sum + Investment.balance inv) (investments s) 0 in
  let totalCryptoValue :=
    fold_left (fun sum crypto =>
                 sum + Cryptocurrency.amount crypto
                       * Cryptocurrency.currentPrice crypto)
              (cryptocurrencies s) 0 in
  let score :=
    calculateFinancialHealth (income s) (expenses s) (savingsBalance s)
      (totalInvestments + totalCryptoValue)
      (Math_max 0 (- chequingBalance s)) in
  setFinancialHealthScore score s.

(** const validateUserData: the errors it sets and the boolean it returns. *)
Definition validateUserData (s : State) : Errors.t * bool :=
  let u := userData s in
  let check (ok : bool) (message : string) :=
    if ok then None else Some message in
  let newErrors :=
    Errors.mk
      (check (validateName (UserData.name u))
             "Please enter a valid name (2-30 alphabetic characters)")
      (check (validateNumber (UserData.chequingBalance u))
             "Please enter a valid number")
      (check (validateNumber (UserData.savingsBalance u))
             "Please enter a valid number")
      (check (validateNumber (UserData.monthlyIncome u))
             "Please enter a valid number")
      (check (validateNumber (UserData.monthlyExpenses u))
             "Please enter a valid number") in
  (newErrors,
   validateName (UserData.name u)
   && validateNumber (UserData.chequingBalance u)
   && validateNumber (UserData.savingsBalance u)
   && validateNumber (UserData.monthlyIncome u)
   && validateNumber (UserData.monthlyExpenses u)).

(** const handleQuestionnaireSubmit.  The last branch is [NaN] from
    [parseFloat], which [validateUserData] has excluded.  (The welcome
    message is written without its emoji.) *)
Definition handleQuestionnaireSubmit (today : string) (w : World) : World :=
  let s := ui w in
  let (newErrors, valid) := validateUserData s in
  let w := w |> update (setErrors newErrors) in
  if valid then
    match parseFloat (UserData.chequingBalance (userData s)),
          parseFloat (UserData.savingsBalance (userData s)),
          parseFloat (UserData.monthlyIncome (userData s)),
          parseFloat (UserData.monthlyExpenses (userData s)) with
    | Some initialChequingBalance, Some initialSavingsBalance,
      Some monthlyIncome, Some monthlyExpenses =>
        let currentDate := today in
        w |> update (setChequingBalance (fun _ => initialChequingBalance))
          |> update (setSavingsBalance (fun _ => initialSavingsBalance))
          |> update (setIncome (fun _ => monthlyIncome))
          |> update (setExpenses (fun _ => monthlyExpenses))
          |> update (setTransactions [
               Transaction.mk (num 1) currentDate "Initial Chequing Balance"
                 initialChequingBalance income_type "Other" chequing;
               Transaction.mk (num 2) currentDate "Initial Savings Balance"
                 initialSavingsBalance income_type "Other" savings;
               Transaction.mk (num 3) currentDate "Monthly Income"
                 monthlyIncome income_type "Other" chequing;
               Transaction.mk (num 4) currentDate "Monthly Expenses"
                 (- monthlyExpenses) expense_type "Other" chequing])
          |> update (setShowQuestionnaire false)
          |> saveData s
          |> toast "Welcome to FinancialFlow! Your initial data has been saved."
               default_variant
    | _, _, _, _ => w
    end
  else w.

(** const updateGoalProgress *)
Definition updateGoalProgress (amount : number) (s : State) : State :=
  s |> setGoals (fun prevGoals =>
         map (fun goal =>
                Goal.mk (Goal.id goal) (Goal.name goal) (Goal.target goal)
                  (Goal.current goal + (if num_ltb 0 amount then amount else 0))
                  (Goal.deadline goal))
             prevGoals).

(** const updateFinances *)
Definition updateFinances (amount : number) (account : Account) (s : State)
  : State :=
  let s := match account with
           | chequing =>
               s |> setChequingBalance (fun prevBalance => prevBalance + amount)
           | savings =>
               s |> setSavingsBalance (fun prevBalance => prevBalance + amount)
           end in
  let s := if num_ltb 0 amount
           then s |> setIncome (fun prevIncome => prevIncome + amount)
           else s |> setExpenses (fun prevExpenses => prevExpenses - amount) in
  updateGoalProgress amount s.

(** Truthiness of a string and of an account name. *)
Definition truthy (s : string) : bool := negb (String.eqb s "").
Definition truthy_account (a : Account) : bool := true.

(** const addTransaction.  The [None] branch is [NaN] from [parseFloat],
    which [validateNumber] has excluded. *)
Definition addTransaction (today : string) (w : World) : World :=
  let s := ui w in
  let newTransaction := newTransaction s in
  if truthy (NewTransaction.description newTransaction)
     && truthy (NewTransaction.amount newTransaction)
     && truthy (NewTransaction.category newTransaction)
     && truthy_account (NewTransaction.account newTransaction)
  then
    if negb (validateNumber (NewTransaction.amount newTransaction))
    then w |> toast "Please enter a valid amount" default_variant
    else
      match parseFloat (NewTransaction.amount newTransaction) with
      | Some parsed =>
          let amount :=
            match NewTransaction.type newTransaction with
            | income_type => parsed
            | expense_type => - parsed
            end in
          let transaction :=
            Transaction.mk
              (num (Z.of_nat (List.length (transactions s)) + 1))
              (NewTransaction.date newTransaction)
              (NewTransaction.description newTransaction)
              amount
              (NewTransaction.type newTransaction)
              (NewTransaction.category newTransaction)
              (NewTransaction.account newTransaction) in
          let updatedTransactions := transaction :: transactions s in
          w |> update (setTransactions updatedTransactions)
            |> update (updateFinances amount
                         (NewTransaction.account newTransaction))
            |> update (setNewTransaction (blank_form today))
            |> saveData s
            |> toast "Transaction added successfully" default_variant
      | None => w
      end
  else
    w |> toast "Please fill in all fields for the transaction" default_variant.

(** const deleteTransaction *)
Definition deleteTransaction (id : number) (w : World) : World :=
  let s := ui w in
  let transactionToDelete :=
    find (fun t => num_eqb (Transaction.id t) id) (transactions s) in
  match transactionToDelete with
  | Some transactionToDelete =>
      let updatedTransactions :=
        filter (fun t => negb (num_eqb (Transaction.id t) id))
               (transactions s) in
      w |> update (setTransactions updatedTransactions)
        |> update (updateFinances (- Transaction.amount transactionToDelete)
                     (Transaction.account transactionToDelete))
        |> saveData s
        |> toast "Transaction deleted successfully" default_variant
  | None => w
  end.

(** ** The vocabulary of the properties *)

Definition Account_eqb (a b : Account) : bool :=
  match a, b with
  | chequing, chequing | savings, savings => true
  | _, _ => false
  end.

Definition sum_amounts (l : list Transaction.t) : number :=
  fold_right (fun t acc => Transaction.amount t + acc) 0 l.

(** The sum of [amount] over the transactions of one account. *)
Definition account_total (a : Account) (l : list Transaction.t) : number :=
  sum_amounts (filter (fun t => Account_eqb (Transaction.account t) a) l).

Definition ledger_invariant (s : State) : Prop :=
  chequingBalance s = account_total chequing (transactions s)
  /\ savingsBalance s = account_total savings (transactions s).

Definition ids (s : State) : list number := map Transaction.id (transactions s).

(** What the user does between two renders: fill the entry form and press
    "Add Transaction", or press the bin of a row. *)
Inductive Operation :=
| AddTransaction (form : NewTransaction.t)
| DeleteTransaction (id : number).

Definition perform (today : string) (w : World) (op : Operation) : World :=
  match op with
  | AddTransaction form =>
      w |> update (setNewTransaction form) |> addTransaction today
  | DeleteTransaction id => w |> deleteTransaction id
  end.

Definition run (today : string) (ops : list Operation) (w : World) : World :=
  fold_left (perform today) ops w.

(** The entry form passes the first test of [addTransaction] and its amount
    passes [validateNumber]. *)
Definition valid_form (f : NewTransaction.t) : bool :=
  truthy (NewTransaction.description f)
  && truthy (NewTransaction.amount f)
  && truthy (NewTransaction.category f)
  && truthy_account (NewTransaction.account f)
  && validateNumber (NewTransaction.amount f).

(** The onboarding of the scenario: the questionnaire filled in on a fresh
    page and submitted. *)
Definition alex : UserData.t := UserData.mk "Alex" "1000" "500" "3000" "2000".

Definition onboarded (today : string) : World :=
  boot today |> update (setUserData alex) |> handleQuestionnaireSubmit today.

Definition coffee (date : string) : NewTransaction.t :=
  NewTransaction.mk "Coffee" "5" expense_type "Food" date chequing.

Definition paycheque (date : string) : NewTransaction.t :=
  NewTransaction.mk "Paycheque" "100" income_type "Other" date chequing.

(** A goal with [amount] added to its [current]. *)
Definition raise_current (amount : number) (goal : Goal.t) : Goal.t :=
  Goal.mk (Goal.id goal) (Goal.name goal) (Goal.target goal)
    (Goal.current goal + amount) (Goal.deadline goal).

(** The amount a transaction of the given type carries. *)
Definition signed_amount (type : TransactionType) (parsed : number) : number :=
  match type with income_type => parsed | expense_type => - parsed end.

(** The four transactions the scenario's onboarding writes. *)
Definition seed_transactions (today : string) : list Transaction.t :=
  [ Transaction.mk (num 1) today "Initial Chequing Balance" (num 1000)
      income_type "Other" chequing;
    Transaction.mk (num 2) today "Initial Savings Balance" (num 500)
      income_type "Other" savings;
    Transaction.mk (num 3) today "Monthly Income" (num 3000)
      income_type "Other" chequing;
    Transaction.mk (num 4) today "Monthly Expenses" (- num 2000)
      expense_type "Other" chequing ].

(** A deposit on the chequing account, and a run of the page in which
    an identifier is handed out twice. *)
Definition deposit (amount : string) (date : string) : NewTransaction.t :=
  NewTransaction.mk "Deposit" amount income_type "Other" date chequing.

Definition colliding_ops (date : string) : list Operation :=
  [ AddTransaction (deposit "10" date);
    AddTransaction (deposit "20" date);
    DeleteTransaction (num 1);
    AddTransaction (deposit "30" date);
    DeleteTransaction (num 2) ].

(** The two notices of [importData]. *)
Definition import_failed : Toast :=
  mkToast "Error importing data. Please check the file format." destructive.
Definition import_succeeded : Toast :=
  mkToast "Data imported successfully" default_variant.

(** ** The settings dialog and the dashboard views *)

Definition setShowSettings (v : bool) (s : State) : State :=
  mkState (activeTab s) (chequingBalance s) (savingsBalance s) (income s)
    (expenses s) (transactions s) (goals s) (newTransaction s)
    (showQuestionnaire s) (userData s) (errors s) (budgetCategories s)
    (financialHealthScore s) v (investments s)
    (cryptocurrencies s).

(** [keyof UserData] *)
Inductive UserDataKey :=
| key_name
| key_chequingBalance
| key_savingsBalance
| key_monthlyIncome
| key_monthlyExpenses.

(** const handleSettingsChange: [{ ...prev, [field]: value }] *)
Definition handleSettingsChange (field : UserDataKey) (value : string)
    (s : State) : State :=
  let prev := userData s in
  s |> setUserData
         (UserData.mk
            (match field with key_name => value
                            | _ => UserData.name prev end)
            (match field with key_chequingBalance => value
                            | _ => UserData.chequingBalance prev end)
            (match field with key_savingsBalance => value
                            | _ => UserData.savingsBalance prev end)
            (match field with key_monthlyIncome => value
                            | _ => UserData.monthlyIncome prev end)
            (match field with key_monthlyExpenses => value
                            | _ => UserData.monthlyExpenses prev end)).

(** const saveSettings.  The catch-all branch is [NaN] from [parseFloat],
    which [validateUserData] has excluded. *)
Definition saveSettings (w : World) : World :=
  let s := ui w in
  let (newErrors, valid) := validateUserData s in
  let w := w |> update (setErrors newErrors) in
  if valid then
    match parseFloat (UserData.chequingBalance (userData s)),
          parseFloat (UserData.savingsBalance (userData s)),
          parseFloat (UserData.monthlyIncome (userData s)),
          parseFloat (UserData.monthlyExpenses (userData s)) with
    | Some newChequingBalance, Some newSavingsBalance,
      Some newMonthlyIncome, Some newMonthlyExpenses =>
        w |> update (setChequingBalance (fun _ => newChequingBalance))
          |> update (setSavingsBalance (fun _ => newSavingsBalance))
          |> update (setIncome (fun _ => newMonthlyIncome))
          |> update (setExpenses (fun _ => newMonthlyExpenses))
          |> saveData s
          |> update (setShowSettings false)
          |> toast "Settings updated successfully" default_variant
    | _, _, _, _ => w
    end
  else
    w |> toast "Please enter valid values for all fields" destructive.

(** [Math.abs] *)
Definition Math_abs (x : number) : number := if num_ltb x 0 then - x else x.



(** What the views read of a [Date]: [getFullYear()] and [getMonth()]
    (0 for January), in local time. *)
Record YearMonth := mkYearMonth { getFullYear : Z; getMonth : Z }.

Definition monthNames : list string :=
  ["Jan"; "Feb"; "Mar"; "Apr"; "May"; "Jun";
   "Jul"; "Aug"; "Sep"; "Oct"; "Nov"; "Dec"].

(** [array[i] += x] for an index within the array. *)
Fixpoint add_at (i : nat) (x : number) (l : list number) : list number :=
  match l, i with
  | [], _ => []
  | y :: r, O => (y + x) :: r
  | y :: r, S j => y :: add_at j x r
  end.

(** The month offset [getCashFlowData] gives a transaction dated [d]. *)
Definition monthIndex (currentDate d : YearMonth) : Z :=
  5 - (getMonth currentDate - getMonth d
       + (getFullYear currentDate - getFullYear d) * 12).

(** The body of the [forEach] of [getCashFlowData] on the two arrays it
    fills.  [dateOf] is [new Date(transaction.date)], [None] for an invalid
    date, whose month is [NaN] and fails both comparisons. *)
Definition cashFlowStep (currentDate : YearMonth)
    (dateOf : string -> option YearMonth)
    (arrays : list number * list number) (transaction : Transaction.t)
  : list number * list number :=
  let (incomeData, expenseData) := arrays in
  match dateOf (Transaction.date transaction) with
  | None => arrays
  | Some transactionDate =>
      let monthIndex := monthIndex currentDate transactionDate in
      if (0 <=? monthIndex)%Z && (monthIndex <? 6)%Z then
        match Transaction.type transaction with
        | income_type =>
            (add_at (Z.to_nat monthIndex) (Transaction.amount transaction)
               incomeData,
             expenseData)
        | expense_type =>
            (incomeData,
             add_at (Z.to_nat monthIndex)
               (Math_abs (Transaction.amount transaction)) expenseData)
        end
      else arrays
  end.

Record CashFlowData := mkCashFlow {
  cashflow_labels : list string;
  incomeData : list number;
  expenseData : list number;
  savingsData : list number }.

(** const getCashFlowData: the labels and the [data] of the three datasets,
    for [currentDate = new Date()] with a month from 0 to 11. *)
Definition getCashFlowData (currentDate : YearMonth)
    (dateOf : string -> option YearMonth) (s : State) : CashFlowData :=
  let labels :=
    map (fun i =>
           nth (Z.to_nat ((getMonth currentDate - 5 + Z.of_nat i) mod 12))
               monthNames "")
        (seq 0 6) in
  let zeros := repeat (0 : number) 6 in
  let (incomeData, expenseData) :=
    fold_left (cashFlowStep currentDate dateOf) (transactions s)
              (zeros, zeros) in
  let savingsData :=
    map (fun i => nth i incomeData 0 - nth i expenseData 0) (seq 0 6) in
  mkCashFlow labels incomeData expenseData savingsData.





(** ** The vocabulary of the further properties *)

(** One of the five entries fails its validator. *)
Definition invalid_userData (u : UserData.t) : Prop :=
  validateName (UserData.name u) = false
  \/ validateNumber (UserData.chequingBalance u) = false
  \/ validateNumber (UserData.savingsBalance u) = false
  \/ validateNumber (UserData.monthlyIncome u) = false
  \/ validateNumber (UserData.monthlyExpenses u) = false.

(** The same goal, with a [current] that is not lower. *)
Definition goal_grown (g g' : Goal.t) : Prop :=
  Goal.id g' = Goal.id g /\ Goal.name g' = Goal.name g
  /\ Goal.target g' = Goal.target g /\ Goal.deadline g' = Goal.deadline g
  /\ Goal.current g <= Goal.current g'.

(** Neither counter is lower and no goal has changed but for a [current]
    that is not lower. *)
Definition grown (s s' : State) : Prop :=
  income s <= income s' /\ expenses s <= expenses s'
  /\ Forall2 goal_grown (goals s) (goals s').

(** The identifiers are distinct and lie between 1 and the number of
    transactions. *)
Definition ids_compact (s : State) : Prop :=
  NoDup (ids s)
  /\ Forall (fun i => exists k : Z,
                 i = num k /\ (1 <= k <= Z.of_nat (List.length (transactions s)))%Z)
            (ids s).


(** The transactions [getCashFlowData] puts in bucket [k]. *)
Definition in_bucket (currentDate : YearMonth)
    (dateOf : string -> option YearMonth) (k : nat) (t : Transaction.t)
  : bool :=
  match dateOf (Transaction.date t) with
  | Some d => (monthIndex currentDate d =? Z.of_nat k)%Z
  | None => false
  end.

(** The test of the [forEach] on the type of a transaction. *)
Definition is_income (t : Transaction.t) : bool :=
  match Transaction.type t with income_type => true | expense_type => false end.

(** The sum of [f] over a list of transactions. *)
Definition total (f : Transaction.t -> number) (l : list Transaction.t)
  : number :=
  fold_right (fun t acc => f t + acc) 0 l.

(** The transaction has a valid date and a month offset from 0 to 5. *)
Definition in_window (currentDate : YearMonth)
    (dateOf : string -> option YearMonth) (t : Transaction.t) : bool :=
  match dateOf (Transaction.date t) with
  | Some d =>
      (0 <=? monthIndex currentDate d)%Z && (monthIndex currentDate d <? 6)%Z
  | None => false
  end.


(** [Number.MAX_VALUE], the largest finite double. *)
Definition Number_MAX_VALUE : number := num (2 ^ 1024 - 2 ^ 971).

(** The four transactions the onboarding writes for the numbers entered. *)
Definition seeds (currentDate : string)
    (initialChequingBalance initialSavingsBalance monthlyIncome
       monthlyExpenses : number) : list Transaction.t :=
  [ Transaction.mk (num 1) currentDate "Initial Chequing Balance"
      initialChequingBalance income_type "Other" chequing;
    Transaction.mk (num 2) currentDate "Initial Savings Balance"
      initialSavingsBalance income_type "Other" savings;
    Transaction.mk (num 3) currentDate "Monthly Income"
      monthlyIncome income_type "Other" chequing;
    Transaction.mk (num 4) currentDate "Monthly Expenses"
      (- monthlyExpenses) expense_type "Other" chequing ].

(** ** The same code over the doubles

    The module [Double] transcribes, over the binary64 numbers of the
    platform, the code whose result turns on overflow, on [NaN] or on the
    writing of numbers in JSON: the health score and its effect, and the
    export and import of the state document.  [JSON.stringify] and
    [JSON.parse] are the platform's: a text is modelled by the value it
    parses to, and a text that [JSON.parse] refuses is [not_JSON]. *)

Definition bind {A B} (x : option A) (f : A -> option B) : option B :=
  match x with Some a => f a | None => None end.

Notation "x <- e ;; k" := (bind e (fun x => k))
  (at level 61, e at next level, right associativity).

Fixpoint traverse {A B} (f : A -> option B) (l : list A) : option (list B) :=
  match l with
  | [] => Some []
  | a :: r =>
      match f a, traverse f r with
      | Some b, Some bs => Some (b :: bs)
      | _, _ => None
      end
  end.

(** [x ?? d] *)
Definition orElse {A} (x : option A) (d : A) : A :=
  match x with Some a => a | None => d end.


Module Double.
Import PrimFloat.
Local Open Scope float_scope.
#[local] Set Warnings "-inexact-float".

Definition is_negative_zero (x : float) : bool :=
  match classify x with FloatClass.NZero => true | _ => false end.

(** [Math.max] and [Math.min] at two arguments: [NaN] if either is [NaN],
    and the positive zero above the negative one. *)
Definition Math_max (a b : float) : float :=
  if is_nan a || is_nan b then nan
  else if a <? b then b
  else if b <? a then a
  else if is_negative_zero a then b else a.

Definition Math_min (a b : float) : float :=
  if is_nan a || is_nan b then nan
  else if a <? b then a
  else if b <? a then b
  else if is_negative_zero a then a else b.

(** const calculateFinancialHealth *)
Definition calculateFinancialHealth
    (income expenses savings investments debt : float) : float :=
  if income =? 0 then 0
  else
    let savingsRate := savings / income in
    let investmentRate := investments / income in
    let debtToIncomeRatio := debt / income in
    let expenseRatio := expenses / income in
    let score := 0 in
    let score := score + savingsRate * 30 in
    let score := score + investmentRate * 20 in
    let score := score + (1 - debtToIncomeRatio) * 25 in
    let score := score + (1 - expenseRatio) * 25 in
    Math_min (Math_max (score * 100) 0) 100.

(** The interfaces, with [number] a double. *)
Module Transaction.
Record t := mk {
  id : float;
  date : string;
  description : string;
  amount : float;
  type : TransactionType;
  category : string;
  account : Account }.
End Transaction.

Module Goal.
Record t := mk {
  id : float;
  name : string;
  target : float;
  current : float;
  deadline : string }.
End Goal.

Module BudgetCategory.
Record t := mk { category : string; limit : float }.
End BudgetCategory.

Module Investment.
Record t := mk {
  id : float;
  type : InvestmentType;
  balance : float;
  interestRate : option float;
  maturityDate : option string }.
End Investment.

Module Cryptocurrency.
Record t := mk {
  id : float;
  name : string;
  symbol : string;
  amount : float;
  purchasePrice : float;
  currentPrice : float }.
End Cryptocurrency.

Module FinancialData.
Record t := mk {
  chequingBalance : option float;
  savingsBalance : option float;
  income : option float;
  expenses : option float;
  transactions : option (list Transaction.t);
  goals : option (list Goal.t);
  budgetCategories : option (list BudgetCategory.t);
  investments : option (list Investment.t);
  cryptocurrencies : option (list Cryptocurrency.t);
  userData : option PartialUserData.t;
  financialHealthScore : option float }.
End FinancialData.

(** The state variables of [FinanceTracker]. *)
Record State := mkState {
  activeTab : string;
  chequingBalance : float;
  savingsBalance : float;
  income : float;
  expenses : float;
  transactions : list Transaction.t;
  goals : list Goal.t;
  newTransaction : NewTransaction.t;
  showQuestionnaire : bool;
  userData : UserData.t;
  errors : Errors.t;
  budgetCategories : list BudgetCategory.t;
  financialHealthScore : float;
  showSettings : bool;
  investments : list Investment.t;
  cryptocurrencies : list Cryptocurrency.t }.

(** The state of the first render. *)
Definition initial_state (today : string) : State :=
  {| activeTab := "dashboard";
     chequingBalance := 0; savingsBalance := 0; income := 0; expenses := 0;
     transactions := []; goals := [];
     newTransaction := blank_form today;
     showQuestionnaire := true;
     userData := UserData.mk "" "" "" "" "";
     errors := Errors.none;
     budgetCategories := [];
     financialHealthScore := 0;
     showSettings := false;
     investments := []; cryptocurrencies := [] |}.

Definition setFinancialHealthScore (v : float) (s : State) : State :=
  mkState (activeTab s) (chequingBalance s) (savingsBalance s) (income s)
    (expenses s) (transactions s) (goals s) (newTransaction s)
    (showQuestionnaire s) (userData s) (errors s) (budgetCategories s)
    v (showSettings s) (investments s) (cryptocurrencies s).

(** The effect on [income, expenses, savingsBalance, chequingBalance,
    investments, cryptocurrencies]. *)
Definition healthEffect (s : State) : State :=
  let totalInvestments :=
    fold_left (fun sum inv => sum + Investment.balance inv)
              (investments s) 0 in
  let totalCryptoValue :=
    fold_left (fun sum crypto =>
                 sum + Cryptocurrency.amount crypto
                       * Cryptocurrency.currentPrice crypto)
              (cryptocurrencies s) 0 in
  let score :=
    calculateFinancialHealth (income s) (expenses s) (savingsBalance s)
      (totalInvestments + totalCryptoValue)
      (Math_max 0 (- chequingBalance s)) in
  setFinancialHealthScore score s.

(** A document, as the value [JSON.parse] makes of its text. *)
#[local] Set Warnings "-register-all".

Inductive JSON :=
| JNull
| JBool (b : bool)
| JNumber (n : float)
| JString (s : string)
| JArray (items : list JSON)
| JObject (members : list (string * JSON)).

(** The text of a file or of a stored item. *)
Inductive FileText := not_JSON | JSON_text (v : JSON).

(** The member of an object under a key; the last one when the text
    repeats the key, as [JSON.parse] has it. *)
Fixpoint member (key : string) (members : list (string * JSON))
  : option JSON :=
  match members with
  | [] => None
  | (k, v) :: rest =>
      match member key rest with
      | Some x => Some x
      | None => if String.eqb k key then Some v else None
      end
  end.

(** [v.key] for a [v] that is neither [null] nor [undefined]: [None] is
    [undefined], which is what reading any of the keys used here from a
    number, a string, a boolean or an array gives. *)
Definition get (v : JSON) (key : string) : option JSON :=
  match v with
  | JObject members => member key members
  | _ => None
  end.

(** What [JSON.parse] reads of what [JSON.stringify] writes for a number:
    [null] for [NaN] and the infinities, 0 for the negative zero, and the
    number itself otherwise. *)
Definition written (x : float) : JSON :=
  match classify x with
  | FloatClass.NaN | FloatClass.PInf | FloatClass.NInf => JNull
  | FloatClass.NZero => JNumber 0
  | _ => JNumber x
  end.

(** A type of the source together with the JSON its values are written as
    and the reading of a JSON value at that type.  TypeScript's annotations
    are erased at run time: a value that is not of the declared type is
    stored as it is, which the typed [State] cannot hold, and the reading
    is [None] there. *)
Class Json (A : Type) := {
  toJSON : A -> JSON;
  ofJSON : JSON -> option A }.

#[export] Instance Json_number : Json float := {|
  toJSON := written;
  ofJSON v := match v with JNumber n => Some n | _ => None end |}.

#[export] Instance Json_string : Json string := {|
  toJSON := JString;
  ofJSON v := match v with JString s => Some s | _ => None end |}.

#[export] Instance Json_list {A} `{Json A} : Json (list A) := {|
  toJSON l := JArray (map toJSON l);
  ofJSON v := match v with
              | JArray items => traverse ofJSON items
              | _ => None
              end |}.

#[export] Instance Json_TransactionType : Json TransactionType := {|
  toJSON t := JString (match t with income_type => "income"
                                   | expense_type => "expense" end);
  ofJSON v := match v with
              | JString s => if String.eqb s "income" then Some income_type
                             else if String.eqb s "expense"
                                  then Some expense_type
                                  else None
              | _ => None
              end |}.

#[export] Instance Json_Account : Json Account := {|
  toJSON a := JString (match a with chequing => "chequing"
                                   | savings => "savings" end);
  ofJSON v := match v with
              | JString s => if String.eqb s "chequing" then Some chequing
                             else if String.eqb s "savings" then Some savings
                             else None
              | _ => None
              end |}.

#[export] Instance Json_InvestmentType : Json InvestmentType := {|
  toJSON t := JString (match t with RRSP => "RRSP" | TFSA => "TFSA"
                                   | GIC => "GIC" | OSAP => "OSAP" end);
  ofJSON v := match v with
              | JString s => if String.eqb s "RRSP" then Some RRSP
                             else if String.eqb s "TFSA" then Some TFSA
                             else if String.eqb s "GIC" then Some GIC
                             else if String.eqb s "OSAP" then Some OSAP
                             else None
              | _ => None
              end |}.

(** A required property of an object. *)
Definition prop {A} `{Json A} (v : JSON) (key : string) : option A :=
  match get v key with
  | Some x => ofJSON x
  | None => None
  end.

(** An optional property ([key?: A]): absent is [undefined]. *)
Definition prop_opt {A} `{Json A} (v : JSON) (key : string)
  : option (option A) :=
  match get v key with
  | Some x => option_map Some (ofJSON x)
  | None => Some None
  end.

(** [JSON.stringify] leaves out a property whose value is [undefined]. *)
Definition member_opt {A} `{Json A} (key : string) (x : option A)
  : list (string * JSON) :=
  match x with
  | Some a => [(key, toJSON a)]
  | None => []
  end.

#[export] Instance Json_Transaction : Json Transaction.t := {|
  toJSON t := JObject [
    ("id", toJSON (Transaction.id t));
    ("date", toJSON (Transaction.date t));
    ("description", toJSON (Transaction.description t));
    ("amount", toJSON (Transaction.amount t));
    ("type", toJSON (Transaction.type t));
    ("category", toJSON (Transaction.category t));
    ("account", toJSON (Transaction.account t))];
  ofJSON v :=
    i <- prop v "id" ;; d <- prop v "date" ;;
    ds <- prop v "description" ;; a <- prop v "amount" ;;
    ty <- prop v "type" ;; c <- prop v "category" ;;
    ac <- prop v "account" ;;
    Some (Transaction.mk i d ds a ty c ac) |}.

#[export] Instance Json_Goal : Json Goal.t := {|
  toJSON g := JObject [
    ("id", toJSON (Goal.id g));
    ("name", toJSON (Goal.name g));
    ("target", toJSON (Goal.target g));
    ("current", toJSON (Goal.current g));
    ("deadline", toJSON (Goal.deadline g))];
  ofJSON v :=
    i <- prop v "id" ;; n <- prop v "name" ;; t <- prop v "target" ;;
    c <- prop v "current" ;; d <- prop v "deadline" ;;
    Some (Goal.mk i n t c d) |}.

#[export] Instance Json_BudgetCategory : Json BudgetCategory.t := {|
  toJSON b := JObject [
    ("category", toJSON (BudgetCategory.category b));
    ("limit", toJSON (BudgetCategory.limit b))];
  ofJSON v :=
    c <- prop v "category" ;; l <- prop v "limit" ;;
    Some (BudgetCategory.mk c l) |}.

#[export] Instance Json_Investment : Json Investment.t := {|
  toJSON x := JObject (
    [("id", toJSON (Investment.id x));
     ("type", toJSON (Investment.type x));
     ("balance", toJSON (Investment.balance x))]
    ++ member_opt "interestRate" (Investment.interestRate x)
    ++ member_opt "maturityDate" (Investment.maturityDate x))%list;
  ofJSON v :=
    i <- prop v "id" ;; t <- prop v "type" ;; b <- prop v "balance" ;;
    r <- prop_opt v "interestRate" ;; m <- prop_opt v "maturityDate" ;;
    Some (Investment.mk i t b r m) |}.

#[export] Instance Json_Cryptocurrency : Json Cryptocurrency.t := {|
  toJSON c := JObject [
    ("id", toJSON (Cryptocurrency.id c));
    ("name", toJSON (Cryptocurrency.name c));
    ("symbol", toJSON (Cryptocurrency.symbol c));
    ("amount", toJSON (Cryptocurrency.amount c));
    ("purchasePrice", toJSON (Cryptocurrency.purchasePrice c));
    ("currentPrice", toJSON (Cryptocurrency.currentPrice c))];
  ofJSON v :=
    i <- prop v "id" ;; n <- prop v "name" ;; s <- prop v "symbol" ;;
    a <- prop v "amount" ;; p <- prop v "purchasePrice" ;;
    c <- prop v "currentPrice" ;;
    Some (Cryptocurrency.mk i n s a p c) |}.

#[export] Instance Json_UserData : Json UserData.t := {|
  toJSON u := JObject [
    ("name", toJSON (UserData.name u));
    ("chequingBalance", toJSON (UserData.chequingBalance u));
    ("savingsBalance", toJSON (UserData.savingsBalance u));
    ("monthlyIncome", toJSON (UserData.monthlyIncome u));
    ("monthlyExpenses", toJSON (UserData.monthlyExpenses u))];
  ofJSON v :=
    n <- prop v "name" ;; c <- prop v "chequingBalance" ;;
    s <- prop v "savingsBalance" ;; i <- prop v "monthlyIncome" ;;
    e <- prop v "monthlyExpenses" ;;
    Some (UserData.mk n c s i e) |}.

(** What [v.key ?? default] sees of a property: [None] when the property is
    [undefined] or [null], so that the default applies. *)
Definition nullable {A} `{Json A} (v : JSON) (key : string)
  : option (option A) :=
  match get v key with
  | None | Some JNull => Some None
  | Some x => option_map Some (ofJSON x)
  end.

(** The [userData] of a document, as [data.userData?.name ?? ''] and its
    siblings read it. *)
Definition PartialUserData_of (u : JSON) : option PartialUserData.t :=
  n <- nullable u "name" ;; c <- nullable u "chequingBalance" ;;
  s <- nullable u "savingsBalance" ;; i <- nullable u "monthlyIncome" ;;
  e <- nullable u "monthlyExpenses" ;;
  Some (PartialUserData.mk n c s i e).

Definition userData_of (v : JSON) : option (option PartialUserData.t) :=
  match get v "userData" with
  | None | Some JNull => Some None
  | Some u => option_map Some (PartialUserData_of u)
  end.

(** A parsed document other than [null], seen at [FinancialData]; [None]
    where a key holds a value of another type than the one declared. *)
Definition FinancialData_of (v : JSON) : option FinancialData.t :=
  cb <- nullable v "chequingBalance" ;; sb <- nullable v "savingsBalance" ;;
  inc <- nullable v "income" ;; ex <- nullable v "expenses" ;;
  ts <- nullable v "transactions" ;; gs <- nullable v "goals" ;;
  bs <- nullable v "budgetCategories" ;; ivs <- nullable v "investments" ;;
  cs <- nullable v "cryptocurrencies" ;; ud <- userData_of v ;;
  sc <- nullable v "financialHealthScore" ;;
  Some (FinancialData.mk cb sb inc ex ts gs bs ivs cs ud sc).

(** What the text [JSON.stringify(dataToExport)] parses to. *)
Definition document (s : State) : JSON :=
  JObject [
    ("chequingBalance", toJSON (chequingBalance s));
    ("savingsBalance", toJSON (savingsBalance s));
    ("income", toJSON (income s));
    ("expenses", toJSON (expenses s));
    ("transactions", toJSON (transactions s));
    ("goals", toJSON (goals s));
    ("budgetCategories", toJSON (budgetCategories s));
    ("investments", toJSON (investments s));
    ("cryptocurrencies", toJSON (cryptocurrencies s));
    ("userData", toJSON (userData s));
    ("financialHealthScore", toJSON (financialHealthScore s))].

(** const updateAllData *)
Definition updateAllData (data : FinancialData.t) (s : State) : State :=
  let u := FinancialData.userData data in
  let field (f : PartialUserData.t -> option string) := bind u f in
  {| activeTab := activeTab s;
     newTransaction := newTransaction s;
     errors := errors s;
     showSettings := showSettings s;
     chequingBalance := orElse (FinancialData.chequingBalance data) 0;
     savingsBalance := orElse (FinancialData.savingsBalance data) 0;
     income := orElse (FinancialData.income data) 0;
     expenses := orElse (FinancialData.expenses data) 0;
     transactions := orElse (FinancialData.transactions data) [];
     goals := orElse (FinancialData.goals data) [];
     budgetCategories := orElse (FinancialData.budgetCategories data) [];
     investments := orElse (FinancialData.investments data) [];
     cryptocurrencies := orElse (FinancialData.cryptocurrencies data) [];
     userData :=
       UserData.mk
         (orElse (field PartialUserData.name) "")
         (orElse (field PartialUserData.chequingBalance) "0")
         (orElse (field PartialUserData.savingsBalance) "0")
         (orElse (field PartialUserData.monthlyIncome) "0")
         (orElse (field PartialUserData.monthlyExpenses) "0");
     financialHealthScore :=
       orElse (FinancialData.financialHealthScore data) 0;
     showQuestionnaire := false |}.

(** [ui] is the component state; the three logs record, most recent first,
    the documents given to [localStorage.setItem], the toasts raised and
    the documents offered for download. *)
Record World := mkWorld {
  ui : State;
  setItem_calls : list JSON;
  toast_calls : list Toast;
  download_calls : list JSON }.

(** What [importData] leaves: [held] is the state, [None] when a state
    variable holds a value of another type than the one declared. *)
Record Outcome := mkOutcome {
  held : option State;
  setItem_after : list JSON;
  toast_after : list Toast;
  download_after : list JSON }.

(** const exportData *)
Definition exportData (w : World) : World :=
  let dataToExport := document (ui w) in
  mkWorld (ui w) (setItem_calls w) (toast_calls w)
    (dataToExport :: download_calls w).

(** const importData, from the [onload] of the reader on.  [null] parses
    and then [data.chequingBalance] throws inside the [try], before any
    setter has run.  Reading a key of any other value throws nothing:
    [updateAllData], the stale [saveData] and the toast of success all
    run. *)
Definition importData (text : FileText) (w : World) : Outcome :=
  let failed :=
    mkOutcome (Some (ui w)) (setItem_calls w)
      (import_failed :: toast_calls w) (download_calls w) in
  match text with
  | not_JSON => failed
  | JSON_text JNull => failed
  | JSON_text importedData =>
      mkOutcome
        (option_map (fun data => updateAllData data (ui w))
           (FinancialData_of importedData))
        (document (ui w) :: setItem_calls w)
        (import_succeeded :: toast_calls w)
        (download_calls w)
  end.

(** const saveData, with the state [s] of the closure. *)
Definition saveData (s : State) (w : World) : World :=
  mkWorld (ui w) (document s :: setItem_calls w) (toast_calls w)
    (download_calls w).



(** A number that JSON writes and reads back as it is: finite, and not the
    negative zero. *)
Definition writable (x : float) : bool :=
  match classify x with
  | FloatClass.NaN | FloatClass.PInf | FloatClass.NInf | FloatClass.NZero =>
      false
  | _ => true
  end.

Definition writable_opt (x : option float) : bool :=
  match x with Some v => writable v | None => true end.

Definition writable_Transaction (t : Transaction.t) : bool :=
  writable (Transaction.id t) && writable (Transaction.amount t).

Definition writable_Goal (g : Goal.t) : bool :=
  writable (Goal.id g) && writable (Goal.target g)
  && writable (Goal.current g).

Definition writable_BudgetCategory (b : BudgetCategory.t) : bool :=
  writable (BudgetCategory.limit b).

Definition writable_Investment (x : Investment.t) : bool :=
  writable (Investment.id x) && writable (Investment.balance x)
  && writable_opt (Investment.interestRate x).

Definition writable_Cryptocurrency (c : Cryptocurrency.t) : bool :=
  writable (Cryptocurrency.id c) && writable (Cryptocurrency.amount c)
  && writable (Cryptocurrency.purchasePrice c)
  && writable (Cryptocurrency.currentPrice c).

(** Every number of the state is writable. *)
Definition writable_State (s : State) : bool :=
  writable (chequingBalance s) && writable (savingsBalance s)
  && writable (income s) && writable (expenses s)
  && writable (financialHealthScore s)
  && forallb writable_Transaction (transactions s)
  && forallb writable_Goal (goals s)
  && forallb writable_BudgetCategory (budgetCategories s)
  && forallb writable_Investment (investments s)
  && forallb writable_Cryptocurrency (cryptocurrencies s).

(** The eleven fields of the state that the document carries. *)
Definition state_tuple (s : State) :=
  (chequingBalance s, savingsBalance s, income s, expenses s,
   transactions s, goals s, budgetCategories s, investments s,
   cryptocurrencies s, userData s, financialHealthScore s).

(** The state [handleQuestionnaireSubmit] leaves of a page in state [s] on
    valid entries, for the four numbers [parseFloat] reads of them. *)
Definition onboarded_with (currentDate : string) (s : State)
    (initialChequingBalance initialSavingsBalance monthlyIncome
       monthlyExpenses : float) : State :=
  {| activeTab := activeTab s;
     chequingBalance := initialChequingBalance;
     savingsBalance := initialSavingsBalance;
     income := monthlyIncome;
     expenses := monthlyExpenses;
     transactions := [
       Transaction.mk 1 currentDate "Initial Chequing Balance"
         initialChequingBalance income_type "Other" chequing;
       Transaction.mk 2 currentDate "Initial Savings Balance"
         initialSavingsBalance income_type "Other" savings;
       Transaction.mk 3 currentDate "Monthly Income"
         monthlyIncome income_type "Other" chequing;
       Transaction.mk 4 currentDate "Monthly Expenses"
         (- monthlyExpenses) expense_type "Other" chequing];
     goals := goals s;
     newTransaction := newTransaction s;
     showQuestionnaire := false;
     userData := userData s;
     errors := Errors.none;
     budgetCategories := budgetCategories s;
     financialHealthScore := financialHealthScore s;
     showSettings := showSettings s;
     investments := investments s;
     cryptocurrencies := cryptocurrencies s |}.

Definition setUserData (v : UserData.t) (s : State) : State :=
  mkState (activeTab s) (chequingBalance s) (savingsBalance s) (income s)
    (expenses s) (transactions s) (goals s) (newTransaction s)
    (showQuestionnaire s) v (errors s) (budgetCategories s)
    (financialHealthScore s) (showSettings s) (investments s)
    (cryptocurrencies s).

(** The page of the scenario: Alex, 1000, 500, 3000 and 2000 submitted on
    a fresh page, and the health effect run. *)
Definition alex_page (today : string) : State :=
  healthEffect
    (onboarded_with today (setUserData alex (initial_state today))
       1000 500 3000 2000).

(** A fresh page onboarded with an income of 1 and with savings and
    expenses of 1e307, entered as a 1 followed by 307 zeros. *)
Definition digits_1e307 : string :=
  String "1" (string_of_list_ascii (repeat "0"%char 307)).

Definition rich_page (today : string) : State :=
  onboarded_with today
    (setUserData (UserData.mk "Alex" "0" digits_1e307 "1" digits_1e307)
       (initial_state today))
    0 1e307 1 1e307.

(** The state [saveSettings] leaves of a page in state [s] on valid
    entries, for the four numbers [parseFloat] reads of them. *)
Definition settings_saved (s : State)
    (newChequingBalance newSavingsBalance newMonthlyIncome
       newMonthlyExpenses : float) : State :=
  {| activeTab := activeTab s;
     chequingBalance := newChequingBalance;
     savingsBalance := newSavingsBalance;
     income := newMonthlyIncome;
     expenses := newMonthlyExpenses;
     transactions := transactions s;
     goals := goals s;
     newTransaction := newTransaction s;
     showQuestionnaire := showQuestionnaire s;
     userData := userData s;
     errors := Errors.none;
     budgetCategories := budgetCategories s;
     financialHealthScore := financialHealthScore s;
     showSettings := false;
     investments := investments s;
     cryptocurrencies := cryptocurrencies s |}.

(** The page of the scenario after the settings dialog has been saved with
    a chequing balance of 400 digits, which [parseFloat] reads as
    [Infinity], and the health effect has run. *)
Definition digits_400 : string :=
  String "1" (string_of_list_ascii (repeat "0"%char 399)).

Definition overflowed_page (today : string) : State :=
  healthEffect
    (settings_saved
       (setUserData (UserData.mk "Alex" digits_400 "500" "3000" "2000")
          (alex_page today))
       infinity 500 3000 2000).

(** A page in a given state, with nothing saved, shown or downloaded
    yet. *)
Definition page (s : State) : World := mkWorld s [] [] [].


End Double.


(** * Properties *)

(** ** Numbers *)

Lemma num_ltb_lt (x y : number) : num_ltb x y = true <-> x < y.
Proof.
  unfold num_ltb. rewrite Qclt_alt. destruct (x ?= y); split; congruence.
Qed.

Lemma num_ltb_ge (x y : number) : num_ltb x y = false <-> y <= x.
Proof.
  split; intros H.
  - apply Qcnot_lt_le. intros L. apply num_ltb_lt in L. congruence.
  - destruct (num_ltb x y) eqn:E; trivial.
    apply num_ltb_lt in E. exfalso. exact (Qcle_not_lt _ _ H E).
Qed.

Lemma num_eqb_eq (x y : number) : num_eqb x y = true <-> x = y.
Proof.
  unfold num_eqb. rewrite Qeq_bool_iff. split.
  - apply Qc_is_canon.
  - intros ->. reflexivity.
Qed.

Lemma num_eqb_refl (x : number) : num_eqb x x = true.
Proof. apply num_eqb_eq. reflexivity. Qed.

Lemma num_eqb_neq (x y : number) : num_eqb x y = false <-> x <> y.
Proof.
  rewrite <- num_eqb_eq. destruct (num_eqb x y); split; congruence.
Qed.

(** ** The health score, over the doubles *)

Section HealthScore.
Import PrimFloat SpecFloat FloatOps FloatAxioms.
Local Open Scope float_scope.
#[local] Set Warnings "-inexact-float".

Lemma SFcompare_antisym (x y : spec_float) :
  SFcompare y x = option_map CompOpp (SFcompare x y).
Proof.
  destruct x as [sx|sx| |sx mx ex], y as [sy|sy| |sy my ey];
    try destruct sx; try destruct sy; try reflexivity;
    cbn [SFcompare option_map]; f_equal;
    rewrite (Z.compare_antisym ex ey);
    destruct (ex ?= ey)%Z; cbn [CompOpp]; trivial;
    change (Pos.compare_cont Eq my mx) with (Pos.compare my mx);
    change (Pos.compare_cont Eq mx my) with (Pos.compare mx my);
    rewrite (Pos.compare_antisym mx my); trivial.
Qed.

Lemma is_nan_spec (x : float) :
  is_nan x = match Prim2SF x with S754_nan => true | _ => false end.
Proof.
  unfold is_nan. rewrite eqb_spec. unfold SFeqb.
  destruct (Prim2SF x) as [s|s| |s m e]; try destruct s; try reflexivity;
    cbn [SFcompare]; rewrite Z.compare_refl;
    change (Pos.compare_cont Eq m m) with (Pos.compare m m);
    rewrite Pos.compare_refl; reflexivity.
Qed.

Lemma ltb_leb (x y : float) : (x <? y) = true -> (x <=? y) = true.
Proof.
  rewrite ltb_spec, leb_spec. unfold SFltb, SFleb.
  destruct (SFcompare _ _) as [[]|]; congruence.
Qed.

Lemma eqb_leb (x y : float) :
  (x =? y) = true -> (x <=? y) = true /\ (y <=? x) = true.
Proof.
  rewrite eqb_spec, !leb_spec. unfold SFeqb, SFleb.
  rewrite (SFcompare_antisym (Prim2SF x) (Prim2SF y)).
  destruct (SFcompare _ _) as [[]|]; cbn; intros H; split; congruence.
Qed.

Lemma not_ltb_eqb (x y : float) :
  is_nan x = false -> is_nan y = false ->
  (x <? y) = false -> (y <? x) = false -> (x =? y) = true.
Proof.
  rewrite !is_nan_spec, !ltb_spec, eqb_spec. unfold SFltb, SFeqb.
  rewrite (SFcompare_antisym (Prim2SF x) (Prim2SF y)).
  destruct (Prim2SF x) as [sx|sx| |sx mx ex], (Prim2SF y) as [sy|sy| |sy my ey];
    try discriminate; intros _ _;
    destruct (SFcompare _ _) as [[]|] eqn:E; cbn; try congruence;
    discriminate E.
Qed.

Lemma Math_max_0 (x : float) :
  is_nan x = false ->
  let m := Double.Math_max x 0 in
  m = 0 \/ (m = x /\ (0 <=? x) = true).
Proof.
  intros N m. subst m. unfold Double.Math_max. rewrite N.
  change (is_nan 0) with false. cbn [orb].
  destruct (x <? 0) eqn:L; [now left|].
  destruct (0 <? x) eqn:G.
  - right. split; [reflexivity | now apply ltb_leb].
  - destruct (Double.is_negative_zero x); [now left|].
    right. split; [reflexivity|].
    apply (eqb_leb x 0). now apply not_ltb_eqb.
Qed.

Lemma Math_min_100 (x : float) :
  is_nan x = false ->
  let m := Double.Math_min x 100 in
  m = 100 \/ (m = x /\ (x <=? 100) = true).
Proof.
  intros N m. subst m. unfold Double.Math_min. rewrite N.
  change (is_nan 100) with false. cbn [orb].
  destruct (x <? 100) eqn:L.
  - right. split; [reflexivity | now apply ltb_leb].
  - destruct (100 <? x) eqn:G; [now left|].
    destruct (Double.is_negative_zero x); [|now left].
    right. split; [reflexivity|].
    apply (eqb_leb x 100). now apply not_ltb_eqb.
Qed.

(** The clamp of a number that is not [NaN] lies between 0 and 100, and
    the clamp of [NaN] is [NaN]. *)
Lemma clamp_range (x : float) :
  let r := Double.Math_min (Double.Math_max x 0) 100 in
  if is_nan x then is_nan r = true
  else (0 <=? r) = true /\ (r <=? 100) = true.
Proof.
  intros r. subst r. destruct (is_nan x) eqn:N.
  - unfold Double.Math_max. rewrite N. reflexivity.
  - destruct (Math_max_0 x N) as [-> | [-> Z]]; [split; reflexivity|].
    destruct (Math_min_100 x N) as [-> | [-> H]]; [split; reflexivity|].
    split; assumption.
Qed.

Lemma ltb_not_nan (x y : float) :
  (x <? y) = true -> is_nan x = false /\ is_nan y = false.
Proof.
  rewrite !is_nan_spec, ltb_spec. unfold SFltb.
  destruct (Prim2SF x) as [sx|sx| |sx mx ex], (Prim2SF y) as [sy|sy| |sy my ey];
    try discriminate; split; reflexivity.
Qed.

Lemma leb_not_nan (x y : float) :
  (x <=? y) = true -> is_nan x = false /\ is_nan y = false.
Proof.
  rewrite !is_nan_spec, leb_spec. unfold SFleb.
  destruct (Prim2SF x) as [sx|sx| |sx mx ex], (Prim2SF y) as [sy|sy| |sy my ey];
    try discriminate; split; reflexivity.
Qed.

Lemma leb_not_ltb (x y : float) : (x <=? y) = true -> (y <? x) = false.
Proof.
  rewrite leb_spec, ltb_spec. unfold SFleb, SFltb.
  rewrite (SFcompare_antisym (Prim2SF x) (Prim2SF y)).
  destruct (SFcompare _ _) as [[]|]; cbn; congruence.
Qed.

Lemma ltb_not_ltb (x y : float) : (x <? y) = true -> (y <? x) = false.
Proof. intros H. now apply leb_not_ltb, ltb_leb. Qed.

Lemma eqb_sym (x y : float) : (x =? y) = (y =? x).
Proof.
  rewrite !eqb_spec. unfold SFeqb.
  rewrite (SFcompare_antisym (Prim2SF x) (Prim2SF y)).
  destruct (SFcompare _ _) as [[]|]; reflexivity.
Qed.

Lemma eqb_refl (x : float) : is_nan x = false -> (x =? x) = true.
Proof. unfold is_nan. now destruct (x =? x). Qed.

Lemma above_100 (x : float) :
  (100 <? x) = true -> (x <? 0) = false /\ (0 <? x) = true.
Proof.
  rewrite !ltb_spec. unfold SFltb.
  change (Prim2SF 0) with (S754_zero false).
  let v := eval vm_compute in (Prim2SF 100) in change (Prim2SF 100) with v.
  destruct (Prim2SF x) as [s|s| |s m e]; try destruct s;
    try discriminate; intros _; split; reflexivity.
Qed.

(** The clamp is 0 below 0, 100 above 100 and the number itself from 0 to
    100. *)
Lemma clamp_values (x : float) :
  let r := Double.Math_min (Double.Math_max x 0) 100 in
  ((x <? 0) = true -> r = 0)
  /\ ((100 <? x) = true -> r = 100)
  /\ ((0 <=? x) = true -> (x <=? 100) = true -> (r =? x) = true).
Proof.
  intros r. subst r. split; [|split].
  - intros L. destruct (ltb_not_nan _ _ L) as [N _].
    unfold Double.Math_max. rewrite N, L. reflexivity.
  - intros G. destruct (ltb_not_nan _ _ G) as [_ N].
    destruct (above_100 x G) as [L P].
    unfold Double.Math_max. rewrite N, L, P. cbn.
    unfold Double.Math_min. rewrite N, G, (ltb_not_ltb _ _ G). reflexivity.
  - intros Z H. destruct (leb_not_nan _ _ Z) as [_ N].
    pose proof (leb_not_ltb _ _ Z) as L. pose proof (leb_not_ltb _ _ H) as G.
    assert (M : Double.Math_max x 0 = x
                \/ Double.Math_max x 0 = 0 /\ (x =? 0) = true).
    { unfold Double.Math_max. rewrite N, L. cbn.
      destruct (0 <? x) eqn:P; [now left|].
      destruct (Double.is_negative_zero x); [|now left].
      right. split; [reflexivity|]. now apply not_ltb_eqb. }
    destruct M as [-> | [-> E]].
    + unfold Double.Math_min. rewrite N, G. cbn.
      destruct (x <? 100) eqn:B; [now apply eqb_refl|].
      destruct (Double.is_negative_zero x); [now apply eqb_refl|].
      rewrite eqb_sym. now apply not_ltb_eqb.
    + rewrite eqb_sym. exact E.
Qed.


(** C4.  Over the doubles [calculateFinancialHealth] returns 0 when the
    income is 0 and otherwise the clamp of 100 times the weighted sum of
    the four ratios: 0 when that number is below 0, 100 when it is above
    100, the number itself in between, and [NaN] when it is [NaN].  So the
    score is between 0 and 100 or is [NaN].  It is [NaN] for an income of 1
    with savings and expenses of 1e307 and neither investments nor debt:
    the weighted sum is then [Infinity] minus [Infinity].  That score is
    neither at least 0 nor at most 100; the questionnaire accepts the
    entries, and the health effect sets it on the page onboarded with
    them. *)
Theorem calculateFinancialHealth_not_a_number :
  (forall income expenses savings investments debt : float,
      let x :=
        (0 + savings / income * 30 + investments / income * 20
         + (1 - debt / income) * 25 + (1 - expenses / income) * 25) * 100 in
      let score :=
        Double.calculateFinancialHealth income expenses savings investments
          debt in
      ((income =? 0) = true -> score = 0)
      /\ ((income =? 0) = false ->
          score = Double.Math_min (Double.Math_max x 0) 100
          /\ (is_nan x = true -> is_nan score = true)
          /\ ((x <? 0) = true -> score = 0)
          /\ ((100 <? x) = true -> score = 100)
          /\ ((0 <=? x) = true -> (x <=? 100) = true -> (score =? x) = true))
      /\ (is_nan score = true
          \/ (0 <=? score) = true /\ (score <=? 100) = true))
  /\ (let score := Double.calculateFinancialHealth 1 1e307 1e307 0 0 in
      is_nan score = true
      /\ (0 <=? score) = false /\ (score <=? 100) = false
      /\ forall today : string,
           snd (validateUserData
                  (setUserData (Double.userData (Double.rich_page today))
                     (initial_state today))) = true
           /\ Double.financialHealthScore
                (Double.healthEffect (Double.rich_page today))
              = score).
Proof.
  split.
  - intros income expenses savings investments debt x score. subst score.
    unfold Double.calculateFinancialHealth.
    destruct (income =? 0).
    + split; [reflexivity|]. split; [discriminate|].
      right. split; reflexivity.
    + split; [discriminate|]. cbv zeta. fold x.
      pose proof (clamp_range x) as R. pose proof (clamp_values x) as V.
      cbv zeta in R, V. destruct V as (V0 & V100 & Vx).
      split.
      * intros _. split; [reflexivity|].
        split; [intros N; now rewrite N in R|].
        split; [exact V0|]. split; [exact V100 | exact Vx].
      * destruct (is_nan x); [now left | now right].
  - cbv zeta. split; [vm_compute; reflexivity|].
    split; [vm_compute; reflexivity|]. split; [vm_compute; reflexivity|].
    intros today. split; vm_compute; reflexivity.
Qed.

End HealthScore.

(** ** Onboarding *)

(** C3 (as amended).  With the questionnaire holding Alex, 1000, 500, 3000
    and 2000, [handleQuestionnaireSubmit] writes exactly the four seed
    transactions, dated today, clears [showQuestionnaire], and sets the
    chequing balance to 1000, the savings balance to 500, the income to
    3000 and the expenses to 2000. *)
Theorem onboarding_alex :
  forall (today : string) (w : World),
    let w' :=
      w |> update (setUserData alex) |> handleQuestionnaireSubmit today in
    transactions (ui w') = seed_transactions today
    /\ showQuestionnaire (ui w') = false
    /\ chequingBalance (ui w') = num 1000
    /\ savingsBalance (ui w') = num 500
    /\ income (ui w') = num 3000
    /\ expenses (ui w') = num 2000.
Proof.
  intros today w. cbv zeta.
  repeat split; vm_compute; reflexivity.
Qed.

(** The chequing balance after the scenario's onboarding is the balance
    entered, not 2000. *)
Lemma onboarding_alex_chequing_not_2000 :
  chequingBalance (ui (onboarded "2024-01-15")) = num 1000
  /\ chequingBalance (ui (onboarded "2024-01-15")) <> num 2000.
Proof.
  split; [vm_compute; reflexivity|].
  intros H. apply (f_equal this) in H. vm_compute in H. discriminate.
Qed.

(** ** [updateFinances], field by field *)

Lemma raise_current_0 (goals : list Goal.t) :
  map (raise_current 0) goals = goals.
Proof.
  induction goals as [|g gs IH]; simpl; [reflexivity|].
  rewrite IH. destruct g; unfold raise_current; simpl.
  now rewrite Qcplus_0_r.
Qed.

Section UpdateFinances.
Variables (amount : number) (account : Account) (s : State).

Local Ltac by_cases :=
  unfold updateFinances, updateGoalProgress;
  destruct account, (num_ltb 0 amount); reflexivity.

Lemma updateFinances_transactions :
  transactions (updateFinances amount account s) = transactions s.
Proof. by_cases. Qed.

Lemma updateFinances_chequingBalance :
  chequingBalance (updateFinances amount account s)
  = match account with
    | chequing => chequingBalance s + amount
    | savings => chequingBalance s
    end.
Proof. by_cases. Qed.

Lemma updateFinances_savingsBalance :
  savingsBalance (updateFinances amount account s)
  = match account with
    | chequing => savingsBalance s
    | savings => savingsBalance s + amount
    end.
Proof. by_cases. Qed.

Lemma updateFinances_income :
  income (updateFinances amount account s)
  = if num_ltb 0 amount then income s + amount else income s.
Proof. by_cases. Qed.

Lemma updateFinances_expenses :
  expenses (updateFinances amount account s)
  = if num_ltb 0 amount then expenses s else expenses s - amount.
Proof. by_cases. Qed.

Lemma updateFinances_goals :
  goals (updateFinances amount account s)
  = map (raise_current (if num_ltb 0 amount then amount else 0)) (goals s).
Proof. by_cases. Qed.
End UpdateFinances.

Lemma validateNumber_parses (s : string) :
  validateNumber s = true -> exists v, parseFloat s = Some v /\ 0 <= v.
Proof.
  unfold validateNumber. intros H. apply andb_true_iff in H as [_ H].
  destruct (parseFloat s) as [v|]; simpl in H; [|discriminate].
  exists v. split; trivial.
  unfold num_leb in H. apply Qcle_alt. destruct (0 ?= v); congruence.
Qed.

Lemma valid_form_elim (f : NewTransaction.t) :
  valid_form f = true ->
  truthy (NewTransaction.description f)
  && truthy (NewTransaction.amount f)
  && truthy (NewTransaction.category f)
  && truthy_account (NewTransaction.account f) = true
  /\ validateNumber (NewTransaction.amount f) = true.
Proof. unfold valid_form. intros H. now apply andb_true_iff in H. Qed.

Lemma addTransaction_accepts (today : string) (w : World) :
  valid_form (newTransaction (ui w)) = true ->
  exists parsed,
    parseFloat (NewTransaction.amount (newTransaction (ui w))) = Some parsed
    /\ 0 <= parsed
    /\ let f := newTransaction (ui w) in
       let amount := signed_amount (NewTransaction.type f) parsed in
       addTransaction today w
       = w |> update (setTransactions
                        (Transaction.mk
                           (num (Z.of_nat (List.length (transactions (ui w))) + 1))
                           (NewTransaction.date f) (NewTransaction.description f)
                           amount (NewTransaction.type f)
                           (NewTransaction.category f) (NewTransaction.account f)
                         :: transactions (ui w)))
           |> update (updateFinances amount (NewTransaction.account f))
           |> update (setNewTransaction (blank_form today))
           |> saveData (ui w)
           |> toast "Transaction added successfully" default_variant.
Proof.
  intros V. apply valid_form_elim in V as [T V].
  destruct (validateNumber_parses _ V) as (parsed & P & N).
  exists parsed. repeat split; trivial.
  cbv zeta. unfold addTransaction. rewrite T, V, P. reflexivity.
Qed.

(** ** Adding a transaction *)

(** C5 (as amended).  On a valid form, [addTransaction] puts at the head of
    the list a transaction whose amount is the parsed amount for an income
    and its opposite for an expense; the balance of the named account moves
    by that signed amount and the other balance stays; a positive signed
    amount is added to the income counter and to the [current] of every
    goal; a negative one adds its magnitude to the expenses counter and
    leaves income and goals alone.  On the onboarded Alex state, adding
    Coffee, "5", expense, Food, chequing gives a chequing balance of 995,
    expenses of 2005 and a head transaction of amount -5. *)
Theorem addTransaction_effect :
  (forall (today : string) (w : World),
      valid_form (newTransaction (ui w)) = true ->
      let f := newTransaction (ui w) in
      let w' := addTransaction today w in
      exists parsed,
        parseFloat (NewTransaction.amount f) = Some parsed
        /\ let amount := signed_amount (NewTransaction.type f) parsed in
           transactions (ui w')
           = Transaction.mk
               (num (Z.of_nat (List.length (transactions (ui w))) + 1))
               (NewTransaction.date f) (NewTransaction.description f)
               amount (NewTransaction.type f)
               (NewTransaction.category f) (NewTransaction.account f)
             :: transactions (ui w)
           /\ (NewTransaction.account f = chequing ->
               chequingBalance (ui w') = chequingBalance (ui w) + amount
               /\ savingsBalance (ui w') = savingsBalance (ui w))
           /\ (NewTransaction.account f = savings ->
               savingsBalance (ui w') = savingsBalance (ui w) + amount
               /\ chequingBalance (ui w') = chequingBalance (ui w))
           /\ (0 < amount ->
               income (ui w') = income (ui w) + amount
               /\ expenses (ui w') = expenses (ui w)
               /\ goals (ui w') = map (raise_current amount) (goals (ui w)))
           /\ (amount < 0 ->
               expenses (ui w') = expenses (ui w) + - amount
               /\ income (ui w') = income (ui w)
               /\ goals (ui w') = goals (ui w)))
  /\ (forall today : string,
        let w' := onboarded today
                  |> update (setNewTransaction (coffee today))
                  |> addTransaction today in
        chequingBalance (ui w') = num 995
        /\ expenses (ui w') = num 2005
        /\ option_map Transaction.amount (hd_error (transactions (ui w')))
           = Some (- num 5)).
Proof.
  split.
  - intros today w V f w'.
    destruct (addTransaction_accepts today w V) as (parsed & P & N & E).
    exists parsed. split; [exact P|]. intros amount.
    subst w'. cbv zeta in E. rewrite E. clear E. fold f. fold amount.
    unfold toast, saveData, update, setNewTransaction.
    cbn [ui transactions chequingBalance savingsBalance income expenses goals].
    rewrite updateFinances_transactions, updateFinances_chequingBalance,
      updateFinances_savingsBalance, updateFinances_income,
      updateFinances_expenses, updateFinances_goals. simpl.
    split; [reflexivity|].
    split; [intros ->; split; reflexivity|].
    split; [intros ->; split; reflexivity|].
    split.
    + intros L. apply num_ltb_lt in L. rewrite L. repeat split; reflexivity.
    + intros L. assert (G : num_ltb 0 amount = false).
      { apply num_ltb_ge. now apply Qclt_le_weak. }
      rewrite G. repeat split; try reflexivity. apply raise_current_0.
  - intros today. cbv zeta. repeat split; vm_compute; reflexivity.
Qed.

(** C6.  When the amount of the form fails [validateNumber], or the
    description, the amount or the category is empty (the account of the
    form is one of the two account names and never empty), [addTransaction]
    leaves every field of the state as it was and calls neither
    [localStorage.setItem] nor the download. *)
Theorem addTransaction_rejects :
  forall (today : string) (w : World),
    let f := newTransaction (ui w) in
    validateNumber (NewTransaction.amount f) = false
    \/ NewTransaction.description f = ""
    \/ NewTransaction.amount f = ""
    \/ NewTransaction.category f = "" ->
    ui (addTransaction today w) = ui w
    /\ setItem_calls (addTransaction today w) = setItem_calls w
    /\ download_calls (addTransaction today w) = download_calls w.
Proof.
  intros today w f H. unfold addTransaction. fold f.
  destruct (truthy (NewTransaction.description f)) eqn:D;
    [|repeat split; reflexivity].
  destruct (truthy (NewTransaction.amount f)) eqn:A;
    [|repeat split; reflexivity].
  destruct (truthy (NewTransaction.category f)) eqn:C;
    [|repeat split; reflexivity].
  destruct (validateNumber (NewTransaction.amount f)) eqn:V;
    [|repeat split; reflexivity].
  exfalso. destruct H as [H|[H|[H|H]]]; try discriminate;
    rewrite H in *; discriminate.
Qed.

Lemma addTransaction_rejects_minus_five :
  validateNumber "-5" = false /\ validateNumber "abc" = false
  /\ let w := onboarded "2024-01-15"
              |> update (setNewTransaction
                           (NewTransaction.mk "Refund" "-5" income_type "Other"
                              "2024-01-15" chequing)) in
     ui (addTransaction "2024-01-15" w) = ui w
     /\ setItem_calls (addTransaction "2024-01-15" w) = setItem_calls w
     /\ download_calls (addTransaction "2024-01-15" w) = download_calls w.
Proof.
  split; [reflexivity|]. split; [reflexivity|].
  apply (addTransaction_rejects "2024-01-15"). left. reflexivity.
Defined.

(** ** Deleting a transaction *)

Lemma find_first {A} (p : A -> bool) (before after : list A) (t : A) :
  Forall (fun u => p u = false) before -> p t = true ->
  find p (before ++ t :: after) = Some t.
Proof.
  induction 1 as [|u before Hu _ IH]; intros Ht; simpl.
  - now rewrite Ht.
  - rewrite Hu. now apply IH.
Qed.

(** C10.  Let [t] be the first transaction of the list that bears [id]
    (others after it may bear it too).  [deleteTransaction id] removes every
    transaction bearing [id] and keeps the others in their order; it runs
    the adjustment of [updateFinances] once, with the negated amount of [t]
    on the account of [t]: that balance, the income or expenses counter and
    the goals move by that one amount, whatever the other bearers of [id]
    carry. *)
Theorem deleteTransaction_shared_id :
  forall (id : number) (w : World) (before after : list Transaction.t)
         (t : Transaction.t),
    transactions (ui w) = (before ++ t :: after)%list ->
    Forall (fun u => Transaction.id u <> id) before ->
    Transaction.id t = id ->
    let w' := deleteTransaction id w in
    let undo := - Transaction.amount t in
    (forall u, In u (transactions (ui w'))
               <-> In u (transactions (ui w)) /\ Transaction.id u <> id)
    /\ transactions (ui w')
       = filter (fun u => negb (num_eqb (Transaction.id u) id))
                (transactions (ui w))
    /\ chequingBalance (ui w')
       = match Transaction.account t with
         | chequing => chequingBalance (ui w) + undo
         | savings => chequingBalance (ui w)
         end
    /\ savingsBalance (ui w')
       = match Transaction.account t with
         | chequing => savingsBalance (ui w)
         | savings => savingsBalance (ui w) + undo
         end
    /\ income (ui w')
       = (if num_ltb 0 undo then income (ui w) + undo else income (ui w))
    /\ expenses (ui w')
       = (if num_ltb 0 undo then expenses (ui w) else expenses (ui w) - undo)
    /\ goals (ui w')
       = map (raise_current (if num_ltb 0 undo then undo else 0)) (goals (ui w)).
Proof.
  intros id w before after t L B T w' undo.
  assert (F : find (fun u => num_eqb (Transaction.id u) id) (transactions (ui w))
              = Some t).
  { rewrite L. apply find_first.
    - eapply Forall_impl; [|exact B]. intros u. apply num_eqb_neq.
    - now apply num_eqb_eq. }
  subst w'. unfold deleteTransaction. rewrite F. fold undo.
  unfold toast, saveData, update.
  cbn [ui].
  rewrite updateFinances_transactions, updateFinances_chequingBalance,
    updateFinances_savingsBalance, updateFinances_income,
    updateFinances_expenses, updateFinances_goals.
  cbn [setTransactions transactions chequingBalance savingsBalance income
         expenses goals].
  split; [|repeat split; reflexivity].
  intros u. rewrite filter_In, negb_true_iff, num_eqb_neq. reflexivity.
Qed.

(** ** The ledger *)

Lemma num_neq (x y : Z) : x <> y -> num x <> num y.
Proof.
  intros N H. apply N. apply Q2Qc_eq_iff in H.
  now apply inject_Z_injective.
Qed.




(** C1, at a run the handlers allow.  On a fresh page, where both balances
    equal the sums over the (empty) list: add 10, add 20, delete the
    transaction 1, add 30 (it receives the identifier 2 a second time),
    delete 2.  The balances equal the sums up to the fourth step; the fifth
    empties the list and leaves a chequing balance of 20. *)
Theorem ledger_broken_after_id_collision :
  forall today : string,
    let w := run today (colliding_ops today) (boot today) in
    ledger_invariant (ui (boot today))
    /\ ledger_invariant (ui (run today (firstn 4 (colliding_ops today)) (boot today)))
    /\ transactions (ui w) = []
    /\ chequingBalance (ui w) = num 20
    /\ ~ ledger_invariant (ui w).
Proof.
  intros today w. subst w.
  split; [split; reflexivity|].
  split; [split; apply Qc_is_canon; reflexivity|].
  split; [reflexivity|].
  split; [vm_compute; reflexivity|].
  intros [C _]. apply (f_equal this) in C. vm_compute in C. discriminate.
Qed.

(** C7, at a run the handlers allow.  From the onboarded state, whose
    identifiers 1, 2, 3, 4 are distinct, deleting transaction 1 and adding
    one gives the new transaction the identifier 3 + 1: the list then bears
    the identifiers 4, 2, 3, 4. *)
Theorem transaction_ids_collide :
  forall today : string,
    let w := run today [DeleteTransaction (num 1); AddTransaction (coffee today)]
                 (onboarded today) in
    NoDup (ids (ui (onboarded today)))
    /\ ids (ui w) = [num 4; num 2; num 3; num 4]
    /\ ~ NoDup (ids (ui w)).
Proof.
  intros today w. subst w. split; [|split].
  - change (NoDup [num 1; num 2; num 3; num 4]).
    repeat constructor; simpl; intuition;
      match goal with H : num _ = num _ |- _ => revert H; apply num_neq; lia end.
  - vm_compute. reflexivity.
  - change (~ NoDup [num 4; num 2; num 3; num 4]).
    intros D. inversion D as [|? ? N _]. apply N. simpl. auto.
Qed.

Lemma raise_current_twice (a b : number) (goals : list Goal.t) :
  map (raise_current b) (map (raise_current a) goals)
  = map (raise_current (a + b)) goals.
Proof.
  rewrite map_map. apply map_ext. intros g. unfold raise_current. simpl.
  f_equal. ring.
Qed.

Lemma deleteTransaction_head (id : number) (w : World) (t : Transaction.t)
      (rest : list Transaction.t) :
  transactions (ui w) = t :: rest -> Transaction.id t = id ->
  ui (deleteTransaction id w)
  = updateFinances (- Transaction.amount t) (Transaction.account t)
      (setTransactions
         (filter (fun u => negb (num_eqb (Transaction.id u) id)) (transactions (ui w)))
         (ui w)).
Proof.
  intros L I. unfold deleteTransaction. rewrite L at 1. simpl find.
  rewrite I, num_eqb_refl. reflexivity.
Qed.

Lemma opp_sign (a : number) :
  (0 < a -> num_ltb 0 a = true /\ num_ltb 0 (- a) = false)
  /\ (a < 0 -> num_ltb 0 a = false /\ num_ltb 0 (- a) = true).
Proof.
  split; intros L.
  - split; [now apply num_ltb_lt|].
    apply num_ltb_ge, Qclt_le_weak, Qclt_minus_iff.
    now rewrite Qcopp_involutive, Qcplus_0_l.
  - split; [apply num_ltb_ge; now apply Qclt_le_weak|].
    apply num_ltb_lt. apply Qclt_minus_iff in L. now rewrite Qcplus_0_l in L.
Qed.

(** X10.  Adding on a valid form and then deleting the identifier just
    handed out does not undo the counters: the income counter, the
    expenses counter and the [current] of every goal have each grown by
    the magnitude of the amount. *)
Lemma deleteTransaction_after_addTransaction (today : string) (w : World) :
  valid_form (newTransaction (ui w)) = true ->
  exists parsed,
    parseFloat (NewTransaction.amount (newTransaction (ui w))) = Some parsed
    /\ let amount :=
         signed_amount (NewTransaction.type (newTransaction (ui w))) parsed in
       let new_id := num (Z.of_nat (List.length (transactions (ui w))) + 1) in
       let w' := w |> addTransaction today |> deleteTransaction new_id in
       (0 < amount ->
           income (ui w') = income (ui w) + amount
           /\ expenses (ui w') = expenses (ui w) + amount
           /\ goals (ui w') = map (raise_current amount) (goals (ui w)))
       /\ (amount < 0 ->
           income (ui w') = income (ui w) - amount
           /\ expenses (ui w') = expenses (ui w) - amount
           /\ goals (ui w') = map (raise_current (- amount)) (goals (ui w))).
Proof.
  intros V.
  destruct (addTransaction_accepts today w V) as (parsed & P & _ & E).
  exists parsed. split; [exact P|]. intros amount new_id w'.
  cbv zeta in E. fold amount new_id in E.
  set (f := newTransaction (ui w)) in *.
  set (s := ui w) in *.
  match type of E with
  | context [setTransactions (?x :: _)] => set (t := x) in *
  end.
  set (s1 := setTransactions (t :: transactions s) s).
  assert (U : ui (addTransaction today w)
              = setNewTransaction (blank_form today)
                  (updateFinances amount (NewTransaction.account f) s1))
    by (rewrite E; reflexivity).
  clearbody s. clear E.
  assert (L : transactions (ui (addTransaction today w)) = t :: transactions s).
  { rewrite U. unfold setNewTransaction. cbn [transactions].
    now rewrite updateFinances_transactions. }
  subst w'. rewrite (deleteTransaction_head new_id _ t _ L eq_refl).
  rewrite updateFinances_income, updateFinances_expenses, updateFinances_goals.
  cbn [setTransactions income expenses goals].
  rewrite U. unfold setNewTransaction.
  cbn [income expenses goals].
  rewrite updateFinances_income, updateFinances_expenses, updateFinances_goals.
  subst s1. cbn [setTransactions income expenses goals].
  subst t. cbn [Transaction.amount Transaction.account].
  rewrite raise_current_twice.
  generalize (income s) (expenses s) (goals s). clearbody amount. clear.
  intros i e g.
  destruct (opp_sign amount) as [Pos Neg].
  split; intros L.
  - destruct (Pos L) as [-> ->]. repeat split; try ring; do 2 f_equal; ring.
  - destruct (Neg L) as [-> ->]. repeat split; try ring; do 2 f_equal; ring.
Qed.

(** C2, at two inputs.  From the onboarded state (income 3000, expenses
    2000), adding an income of 100 and deleting it restores the list and
    the chequing balance but leaves income 3100 and expenses 2100; adding
    an expense of 5 and deleting it leaves income 3005 and expenses 2005. *)
Theorem delete_after_add_keeps_the_counters :
  forall today : string,
    let before := onboarded today in
    let income_round :=
      run today [AddTransaction (paycheque today); DeleteTransaction (num 5)]
          before in
    let expense_round :=
      run today [AddTransaction (coffee today); DeleteTransaction (num 5)]
          before in
    (income (ui before) = num 3000 /\ expenses (ui before) = num 2000)
    /\ (transactions (ui income_round) = transactions (ui before)
        /\ chequingBalance (ui income_round) = chequingBalance (ui before)
        /\ income (ui income_round) = num 3100
        /\ expenses (ui income_round) = num 2100)
    /\ (transactions (ui expense_round) = transactions (ui before)
        /\ chequingBalance (ui expense_round) = chequingBalance (ui before)
        /\ income (ui expense_round) = num 3005
        /\ expenses (ui expense_round) = num 2005).
Proof.
  intros today. cbv zeta. repeat split; vm_compute; reflexivity.
Qed.

(** The amended C5 at the Coffee form on the onboarded state. *)
Lemma addTransaction_effect_coffee :
  let w := onboarded "2024-01-15"
           |> update (setNewTransaction (coffee "2024-01-15")) in
  valid_form (newTransaction (ui w)) = true
  /\ exists parsed,
       parseFloat "5" = Some parsed
       /\ transactions (ui (addTransaction "2024-01-15" w))
          = Transaction.mk (num 5) "2024-01-15" "Coffee" (- parsed)
              expense_type "Food" chequing
            :: transactions (ui w).
Proof.
  intros w.
  assert (V : valid_form (newTransaction (ui w)) = true) by reflexivity.
  split; [exact V|].
  destruct (proj1 addTransaction_effect "2024-01-15" w V) as (parsed & P & T & _).
  exists parsed. split; [exact P | exact T].
Defined.

(** Coffee on the onboarded state leaves a chequing balance of 995. *)
Lemma coffee_on_alex_chequing_not_1995 :
  let w := onboarded "2024-01-15"
           |> update (setNewTransaction (coffee "2024-01-15"))
           |> addTransaction "2024-01-15" in
  chequingBalance (ui w) = num 995 /\ chequingBalance (ui w) <> num 1995.
Proof.
  split; [vm_compute; reflexivity|].
  intros H. apply (f_equal this) in H. vm_compute in H. discriminate.
Qed.

(** C10 on a list in which two deposits, of 30 and of 20, bear the
    identifier 2: both go, the balance moves by the 30 alone. *)
Lemma deleteTransaction_shared_id_twice :
  let d := "2024-01-15" in
  let w := run d (firstn 4 (colliding_ops d)) (boot d) in
  map Transaction.id (transactions (ui w)) = [num 2; num 2]
  /\ map Transaction.amount (transactions (ui w)) = [num 30; num 20]
  /\ transactions (ui (deleteTransaction (num 2) w)) = []
  /\ chequingBalance (ui (deleteTransaction (num 2) w))
     = chequingBalance (ui w) + - num 30.
Proof.
  intros d w.
  split; [vm_compute; reflexivity|].
  split; [vm_compute; reflexivity|].
  pose (t := Transaction.mk (num 2) d "Deposit" (num 30) income_type "Other"
               chequing).
  pose (u := Transaction.mk (num 2) d "Deposit" (num 20) income_type "Other"
               chequing).
  assert (L : transactions (ui w) = ([] ++ t :: [u])%list)
    by (vm_compute; reflexivity).
  destruct (deleteTransaction_shared_id (num 2) w [] [u] t L
              (Forall_nil _) eq_refl) as (_ & T & C & _).
  split.
  - rewrite T, L. vm_compute. reflexivity.
  - exact C.
Defined.

(** ** Export and import *)

Section ExportImport.
Import PrimFloat.
Local Open Scope float_scope.
Import Double.

Lemma written_writable (x : float) :
  writable x = true -> written x = JNumber x.
Proof. unfold writable, written. destruct (classify x); congruence. Qed.

Lemma read_written_number (x : float) :
  writable x = true -> ofJSON (toJSON x) = Some x.
Proof. intros W. cbn. now rewrite written_writable. Qed.

Lemma read_written_list {A} `{Json A} (ok : A -> bool) :
  (forall a, ok a = true -> ofJSON (toJSON a) = Some a) ->
  forall l : list A, forallb ok l = true -> ofJSON (toJSON l) = Some l.
Proof.
  intros R l. cbn. induction l as [|a l IH]; cbn; [reflexivity|].
  intros W. apply andb_true_iff in W as [Wa Wl].
  now rewrite (R a Wa), (IH Wl).
Qed.

Local Ltac numbers W :=
  repeat match type of W with
         | (_ && _) = true =>
             let W' := fresh "W" in
             apply andb_true_iff in W as [W W'];
             try (apply written_writable in W')
         end;
  try (apply written_writable in W).

Lemma read_written_Transaction (t : Transaction.t) :
  writable_Transaction t = true -> ofJSON (toJSON t) = Some t.
Proof.
  destruct t as [i d ds a [] c []]; unfold writable_Transaction;
    cbn [Transaction.id Transaction.amount]; intros W; numbers W;
    unfold toJSON, Json_Transaction, toJSON, Json_number;
    cbn [Transaction.id Transaction.amount]; rewrite W, W0; reflexivity.
Qed.

Lemma read_written_Goal (g : Goal.t) :
  writable_Goal g = true -> ofJSON (toJSON g) = Some g.
Proof.
  destruct g as [i n t c d]; unfold writable_Goal;
    cbn [Goal.id Goal.target Goal.current]; intros W; numbers W;
    unfold toJSON, Json_Goal, toJSON, Json_number;
    cbn [Goal.id Goal.target Goal.current]; rewrite W, W0, W1; reflexivity.
Qed.

Lemma read_written_BudgetCategory (b : BudgetCategory.t) :
  writable_BudgetCategory b = true -> ofJSON (toJSON b) = Some b.
Proof.
  destruct b as [c l]; unfold writable_BudgetCategory;
    cbn [BudgetCategory.limit]; intros W; numbers W;
    unfold toJSON, Json_BudgetCategory, toJSON, Json_number;
    cbn [BudgetCategory.limit]; rewrite W; reflexivity.
Qed.

Lemma read_written_Investment (x : Investment.t) :
  writable_Investment x = true -> ofJSON (toJSON x) = Some x.
Proof.
  destruct x as [i [] b [r|] [m|]]; unfold writable_Investment, writable_opt;
    cbn [Investment.id Investment.balance Investment.interestRate];
    intros W; numbers W;
    unfold toJSON, Json_Investment, member_opt, toJSON, Json_number;
    cbn [Investment.id Investment.balance Investment.interestRate
         Investment.maturityDate Investment.type];
    rewrite ?W, ?W0, ?W1; reflexivity.
Qed.

Lemma read_written_Cryptocurrency (c : Cryptocurrency.t) :
  writable_Cryptocurrency c = true -> ofJSON (toJSON c) = Some c.
Proof.
  destruct c as [i n s a p q]; unfold writable_Cryptocurrency;
    cbn [Cryptocurrency.id Cryptocurrency.amount Cryptocurrency.purchasePrice
         Cryptocurrency.currentPrice]; intros W; numbers W;
    unfold toJSON, Json_Cryptocurrency, toJSON, Json_number;
    cbn [Cryptocurrency.id Cryptocurrency.amount Cryptocurrency.purchasePrice
         Cryptocurrency.currentPrice]; rewrite W, W0, W1, W2; reflexivity.
Qed.

Lemma nullable_written {A} `{Json A} (v : JSON) (key : string) (a : A) :
  get v key = Some (toJSON a) -> toJSON a <> JNull ->
  ofJSON (toJSON a) = Some a -> nullable v key = Some (Some a).
Proof.
  intros G N R. unfold nullable. rewrite G.
  destruct (toJSON a); try congruence; now rewrite R.
Qed.

Lemma FinancialData_of_document (s : State) :
  writable_State s = true ->
  FinancialData_of (document s)
  = Some (FinancialData.mk
            (Some (chequingBalance s)) (Some (savingsBalance s))
            (Some (income s)) (Some (expenses s))
            (Some (transactions s)) (Some (goals s))
            (Some (budgetCategories s)) (Some (investments s))
            (Some (cryptocurrencies s))
            (Some (PartialUserData.mk
                     (Some (UserData.name (userData s)))
                     (Some (UserData.chequingBalance (userData s)))
                     (Some (UserData.savingsBalance (userData s)))
                     (Some (UserData.monthlyIncome (userData s)))
                     (Some (UserData.monthlyExpenses (userData s)))))
            (Some (financialHealthScore s))).
Proof.
  unfold writable_State. intros W.
  repeat (let W' := fresh "W" in apply andb_true_iff in W as [W W']).
  unfold FinancialData_of.
  rewrite (nullable_written _ "chequingBalance" (chequingBalance s));
    [|reflexivity| cbn; rewrite written_writable by assumption; discriminate
     | now apply read_written_number].
  rewrite (nullable_written _ "savingsBalance" (savingsBalance s));
    [|reflexivity| cbn; rewrite written_writable by assumption; discriminate
     | now apply read_written_number].
  rewrite (nullable_written _ "income" (income s));
    [|reflexivity| cbn; rewrite written_writable by assumption; discriminate
     | now apply read_written_number].
  rewrite (nullable_written _ "expenses" (expenses s));
    [|reflexivity| cbn; rewrite written_writable by assumption; discriminate
     | now apply read_written_number].
  rewrite (nullable_written _ "transactions" (transactions s));
    [|reflexivity| discriminate
     | now apply (read_written_list _ read_written_Transaction)].
  rewrite (nullable_written _ "goals" (goals s));
    [|reflexivity| discriminate
     | now apply (read_written_list _ read_written_Goal)].
  rewrite (nullable_written _ "budgetCategories" (budgetCategories s));
    [|reflexivity| discriminate
     | now apply (read_written_list _ read_written_BudgetCategory)].
  rewrite (nullable_written _ "investments" (investments s));
    [|reflexivity| discriminate
     | now apply (read_written_list _ read_written_Investment)].
  rewrite (nullable_written _ "cryptocurrencies" (cryptocurrencies s));
    [|reflexivity| discriminate
     | now apply (read_written_list _ read_written_Cryptocurrency)].
  rewrite (nullable_written _ "financialHealthScore" (financialHealthScore s));
    [|reflexivity| cbn; rewrite written_writable by assumption; discriminate
     | now apply read_written_number].
  reflexivity.
Qed.

Lemma updateAllData_document (s s0 : State) :
  writable_State s = true ->
  exists data,
    FinancialData_of (document s) = Some data
    /\ state_tuple (updateAllData data s0) = state_tuple s.
Proof.
  intros W. eexists. split; [now apply FinancialData_of_document|].
  unfold state_tuple. cbn. destruct (userData s). reflexivity.
Qed.

Lemma healthEffect_tuple (s : State) :
  financialHealthScore (healthEffect s) = financialHealthScore s ->
  state_tuple (healthEffect s) = state_tuple s.
Proof. unfold state_tuple. cbn. intros ->. reflexivity. Qed.

Lemma healthEffect_inputs (s s' : State) :
  state_tuple s' = state_tuple s ->
  financialHealthScore (healthEffect s') = financialHealthScore (healthEffect s).
Proof.
  unfold state_tuple. intros E. injection E as C S I X _ _ _ V Y _ _.
  cbn. now rewrite C, S, I, X, V, Y.
Qed.

(** C8 (as amended).  For a page whose numbers are all finite and not the
    negative zero, the document [exportData] offers for download, imported
    on any page, is accepted with the notice of success, and the state
    tuple of the importing page is then the state tuple of the exporting
    one.  Where the exported score is the one the health effect computes
    (as it is once the effect has run), the tuples still agree after the
    effect has run on the importing page. *)
Theorem export_import_round_trip :
  forall w w0 : World,
    writable_State (ui w) = true ->
    exists (blob : JSON) (s1 : State),
      download_calls (exportData w) = blob :: download_calls w
      /\ held (importData (JSON_text blob) w0) = Some s1
      /\ toast_after (importData (JSON_text blob) w0)
         = import_succeeded :: toast_calls w0
      /\ state_tuple s1 = state_tuple (ui w)
      /\ (financialHealthScore (healthEffect (ui w))
          = financialHealthScore (ui w) ->
          state_tuple (healthEffect s1) = state_tuple (ui w)).
Proof.
  intros w w0 W.
  destruct (updateAllData_document (ui w) (ui w0) W) as (data & F & T).
  exists (document (ui w)), (updateAllData data (ui w0)).
  split; [reflexivity|].
  assert (I : importData (JSON_text (document (ui w))) w0
              = mkOutcome (Some (updateAllData data (ui w0)))
                  (document (ui w0) :: setItem_calls w0)
                  (import_succeeded :: toast_calls w0) (download_calls w0)).
  { unfold importData. cbn [document]. fold (document (ui w)).
    now rewrite F. }
  rewrite I. cbn [held toast_after].
  split; [reflexivity|]. split; [reflexivity|]. split; [exact T|].
  intros Settled. rewrite healthEffect_tuple; [exact T|].
  rewrite (healthEffect_inputs _ _ T), Settled.
  unfold state_tuple in T. now injection T.
Qed.

(** A page that holds [Infinity] as its chequing balance exports [null]
    for it, and the importing page reads 0. *)
Lemma export_import_loses_infinity :
  let w := page (overflowed_page "2024-01-15") in
  let w0 := page (initial_state "2024-02-01") in
  exists (blob : JSON) (s1 : State),
    download_calls (exportData w) = blob :: download_calls w
    /\ get blob "chequingBalance" = Some JNull
    /\ held (importData (JSON_text blob) w0) = Some s1
    /\ chequingBalance (ui w) = infinity
    /\ chequingBalance s1 = 0
    /\ state_tuple s1 <> state_tuple (ui w).
Proof.
  intros w w0. do 2 eexists.
  split; [reflexivity|]. split; [reflexivity|].
  split; [vm_compute; reflexivity|]. split; [reflexivity|].
  split; [reflexivity|].
  intros E. apply (f_equal (fun t => classify (fst (fst (fst (fst (fst (fst (fst (fst (fst (fst t)))))))))))) in E.
  vm_compute in E. discriminate.
Qed.






(** The amended C8 from the page of the scenario into a fresh page. *)
Lemma export_import_round_trip_onboarded :
  let w := page (alex_page "2024-01-15") in
  let w0 := page (initial_state "2024-02-01") in
  (writable_State (ui w) = true
   /\ financialHealthScore (healthEffect (ui w)) = financialHealthScore (ui w))
  /\ exists (blob : JSON) (s1 : State),
       download_calls (exportData w) = blob :: download_calls w
       /\ held (importData (JSON_text blob) w0) = Some s1
       /\ state_tuple (healthEffect s1) = state_tuple (ui w).
Proof.
  intros w w0.
  assert (W : writable_State (ui w) = true) by (vm_compute; reflexivity).
  assert (S : financialHealthScore (healthEffect (ui w))
              = financialHealthScore (ui w)) by (vm_compute; reflexivity).
  split; [split; [exact W | exact S]|].
  destruct (export_import_round_trip w w0 W) as (blob & s1 & D & I & _ & _ & T).
  exists blob, s1. split; [exact D|]. split; [exact I | exact (T S)].
Defined.


End ExportImport.

(** * Further properties of the handlers and views *)

(** From [Qc] to [Q], where [lra] decides linear goals. *)
Ltac to_Q :=
  unfold Qcle, Qclt, Qcminus, Qcplus, Qcmult, Qcopp, num, Q2Qc in *;
  cbn [this] in *; rewrite ?Qred_correct in *; unfold inject_Z in *.

Lemma num_nonneg (a : Z) : (0 <= a)%Z -> 0 <= num a.
Proof.
  intros H. unfold Qcle, num, Q2Qc. cbn [this]. rewrite !Qred_correct.
  change 0%Q with (inject_Z 0). now rewrite <- Zle_Qle.
Qed.

Lemma span_digits_digits (l ds rest : list ascii) :
  span_digits l = (ds, rest) -> forallb is_digit ds = true.
Proof.
  revert ds rest. induction l as [|c l IH]; simpl; intros ds rest E.
  - injection E as <- <-. reflexivity.
  - destruct (is_digit c) eqn:D.
    + destruct (span_digits l) as [ds' rest'] eqn:S.
      injection E as <- <-. simpl. rewrite D. eapply IH. reflexivity.
    + injection E as <- <-. reflexivity.
Qed.

Lemma digit_value_range (c : ascii) :
  is_digit c = true -> (0 <= digit_value c <= 9)%Z.
Proof.
  unfold is_digit, digit_value. intros H.
  apply andb_true_iff in H as [L U].
  apply Nat.leb_le in L. apply Nat.leb_le in U. lia.
Qed.

Lemma digits_value_nonneg (l : list ascii) (acc : Z) :
  forallb is_digit l = true -> (0 <= acc)%Z -> (0 <= digits_value acc l)%Z.
Proof.
  revert acc.
  induction l as [|c l IH]; cbn [digits_value forallb]; intros acc D A;
    [exact A|].
  apply andb_true_iff in D as [Dc Dl].
  apply IH; trivial. pose proof (digit_value_range c Dc). lia.
Qed.

(** ** The validators *)

Lemma num_pos (k : Z) : (0 < k)%Z -> 0 < num k.
Proof.
  intros H. unfold Qclt, num, Q2Qc. cbn [this]. rewrite !Qred_correct.
  change 0%Q with (inject_Z 0). now rewrite <- Zlt_Qlt.
Qed.

(** X1.  [validateNumber] accepts exactly the strings of the numeric
    pattern: on every one of them [parseFloat] gives a number, not [NaN],
    and the number is not negative, so that the second test of
    [validateNumber] rejects nothing the first has let through. *)
Theorem validateNumber_is_the_pattern (value : string) :
  validateNumber value = number_pattern value
  /\ (number_pattern value = true ->
      exists v : number, parseFloat value = Some v /\ 0 <= v).
Proof.
  assert (P : number_pattern value = true ->
              exists v : number, parseFloat value = Some v /\ 0 <= v).
  { unfold number_pattern, parseFloat, decimal_parts.
    destruct (span_digits (list_ascii_of_string value)) as [ip rest] eqn:S.
    pose proof (span_digits_digits _ _ _ S) as Dip.
    destruct (is_nil ip); [discriminate|].
    destruct rest as [|c f].
    - intros _. eexists. split; [reflexivity|].
      apply num_nonneg. now apply digits_value_nonneg.
    - destruct (Ascii.eqb c "."); [|discriminate].
      destruct (span_digits f) as [fp tail] eqn:F.
      pose proof (span_digits_digits _ _ _ F) as Dfp.
      destruct (is_nil tail); [|discriminate].
      intros _. eexists. split; [reflexivity|].
      assert (D : forallb is_digit (ip ++ fp) = true)
        by (rewrite forallb_app, Dip, Dfp; reflexivity).
      pose proof (num_nonneg _ (digits_value_nonneg _ 0 D (Z.le_refl 0))) as N.
      assert (T : 0 < num (10 ^ Z.of_nat (List.length fp)))
        by (apply num_pos, Z.pow_pos_nonneg; lia).
      revert N T. generalize (num (digits_value 0 (ip ++ fp)))
        (num (10 ^ Z.of_nat (List.length fp))). clear. intros a b N T.
      apply (Qcmult_lt_0_le_reg_r _ _ b T). rewrite Qcmult_0_l.
      replace (a / b * b) with a; [exact N|].
      field. intros E. rewrite E in T. discriminate. }
  split; [|exact P].
  unfold validateNumber. destruct (number_pattern value); [|reflexivity].
  destruct (P eq_refl) as (v & -> & L). cbn [andb ge0].
  unfold num_leb. rewrite Qcle_alt in L. destruct (0 ?= v); congruence.
Qed.

(** ** The questionnaire and the settings dialog *)

Lemma validateUserData_false (s : State) :
  invalid_userData (userData s) -> snd (validateUserData s) = false.
Proof.
  unfold invalid_userData, validateUserData. cbn [snd].
  intros [H|[H|[H|[H|H]]]]; rewrite H;
    repeat rewrite ?andb_false_r, ?andb_false_l; reflexivity.
Qed.

Lemma validateUserData_true (s : State) :
  snd (validateUserData s) = true ->
  exists c v i e,
    parseFloat (UserData.chequingBalance (userData s)) = Some c
    /\ parseFloat (UserData.savingsBalance (userData s)) = Some v
    /\ parseFloat (UserData.monthlyIncome (userData s)) = Some i
    /\ parseFloat (UserData.monthlyExpenses (userData s)) = Some e
    /\ 0 <= c /\ 0 <= v /\ 0 <= i /\ 0 <= e.
Proof.
  unfold validateUserData. cbn [snd]. intros H.
  apply andb_true_iff in H as [H E]. apply andb_true_iff in H as [H I].
  apply andb_true_iff in H as [H V]. apply andb_true_iff in H as [_ C].
  destruct (validateNumber_parses _ C) as (c & -> & ?).
  destruct (validateNumber_parses _ V) as (v & -> & ?).
  destruct (validateNumber_parses _ I) as (i & -> & ?).
  destruct (validateNumber_parses _ E) as (e & -> & ?).
  exists c, v, i, e. repeat split; trivial.
Qed.

Lemma errors_of_validateUserData (s : State) :
  let newErrors := fst (validateUserData s) in
  let u := userData s in
  (Errors.name newErrors = None <-> validateName (UserData.name u) = true)
  /\ (Errors.chequingBalance newErrors = None
      <-> validateNumber (UserData.chequingBalance u) = true)
  /\ (Errors.savingsBalance newErrors = None
      <-> validateNumber (UserData.savingsBalance u) = true)
  /\ (Errors.monthlyIncome newErrors = None
      <-> validateNumber (UserData.monthlyIncome u) = true)
  /\ (Errors.monthlyExpenses newErrors = None
      <-> validateNumber (UserData.monthlyExpenses u) = true).
Proof.
  unfold validateUserData. cbn [fst Errors.name Errors.chequingBalance
    Errors.savingsBalance Errors.monthlyIncome Errors.monthlyExpenses].
  repeat split; intros H;
    match goal with
    | |- context [if ?b then _ else _] => destruct b; congruence
    | H : context [if ?b then _ else _] |- _ => destruct b; congruence
    end.
Qed.

Lemma submit_split (s : State) :
  validateUserData s = (fst (validateUserData s), snd (validateUserData s)).
Proof. apply surjective_pairing. Qed.

(** X2.  When one of the five entries of the questionnaire is invalid,
    [handleQuestionnaireSubmit] changes nothing of the state but [errors],
    which then holds at least one message; nothing is saved and no toast
    is raised. *)
Theorem handleQuestionnaireSubmit_rejects (today : string) (w : World) :
  invalid_userData (userData (ui w)) ->
  let w' := handleQuestionnaireSubmit today w in
  ui w' = setErrors (fst (validateUserData (ui w))) (ui w)
  /\ errors (ui w') <> Errors.none
  /\ setItem_calls w' = setItem_calls w
  /\ toast_calls w' = toast_calls w.
Proof.
  intros I w'. subst w'. unfold handleQuestionnaireSubmit.
  pose proof (validateUserData_false _ I) as F.
  pose proof (errors_of_validateUserData (ui w)) as (En & Ec & Es & Ei & Ee).
  rewrite submit_split, F.
  split; [reflexivity|]. split; [|split; reflexivity].
  cbn [ui update setErrors errors]. intros N.
  destruct I as [H|[H|[H|[H|H]]]].
  - apply (f_equal Errors.name) in N. apply En in N. congruence.
  - apply (f_equal Errors.chequingBalance) in N. apply Ec in N. congruence.
  - apply (f_equal Errors.savingsBalance) in N. apply Es in N. congruence.
  - apply (f_equal Errors.monthlyIncome) in N. apply Ei in N. congruence.
  - apply (f_equal Errors.monthlyExpenses) in N. apply Ee in N. congruence.
Qed.

(** X5.  When one of the five entries is invalid, [saveSettings] changes
    nothing of the state but [errors], which then holds at least one
    message; nothing is saved and the one toast raised is the destructive
    one. *)
Theorem saveSettings_rejects (w : World) :
  invalid_userData (userData (ui w)) ->
  let w' := saveSettings w in
  ui w' = setErrors (fst (validateUserData (ui w))) (ui w)
  /\ errors (ui w') <> Errors.none
  /\ setItem_calls w' = setItem_calls w
  /\ toast_calls w'
     = mkToast "Please enter valid values for all fields" destructive
       :: toast_calls w.
Proof.
  intros I w'. subst w'. unfold saveSettings.
  pose proof (validateUserData_false _ I) as F.
  pose proof (errors_of_validateUserData (ui w)) as (En & Ec & Es & Ei & Ee).
  rewrite submit_split, F.
  split; [reflexivity|]. split; [|split; reflexivity].
  cbn [ui update toast setErrors errors]. intros N.
  destruct I as [H|[H|[H|[H|H]]]].
  - apply (f_equal Errors.name) in N. apply En in N. congruence.
  - apply (f_equal Errors.chequingBalance) in N. apply Ec in N. congruence.
  - apply (f_equal Errors.savingsBalance) in N. apply Es in N. congruence.
  - apply (f_equal Errors.monthlyIncome) in N. apply Ei in N. congruence.
  - apply (f_equal Errors.monthlyExpenses) in N. apply Ee in N. congruence.
Qed.

(** X3.  On valid entries [handleQuestionnaireSubmit] sets the two
    balances, the income and the expenses to the numbers entered, replaces
    the transactions by four seeds numbered 1 to 4 and dated today (the
    two balances and the income as they are, the expenses negated), hides
    the questionnaire, leaves the goals as they are and raises the welcome
    toast. *)
Theorem handleQuestionnaireSubmit_seeds (today : string) (w : World) :
  snd (validateUserData (ui w)) = true ->
  exists c v i e : number,
    parseFloat (UserData.chequingBalance (userData (ui w))) = Some c
    /\ parseFloat (UserData.savingsBalance (userData (ui w))) = Some v
    /\ parseFloat (UserData.monthlyIncome (userData (ui w))) = Some i
    /\ parseFloat (UserData.monthlyExpenses (userData (ui w))) = Some e
    /\ let w' := handleQuestionnaireSubmit today w in
       chequingBalance (ui w') = c /\ savingsBalance (ui w') = v
       /\ income (ui w') = i /\ expenses (ui w') = e
       /\ transactions (ui w') = seeds today c v i e
       /\ showQuestionnaire (ui w') = false
       /\ goals (ui w') = goals (ui w)
       /\ toast_calls w'
          = mkToast
              "Welcome to FinancialFlow! Your initial data has been saved."
              default_variant
            :: toast_calls w.
Proof.
  intros V.
  destruct (validateUserData_true _ V) as (c & v & i & e & Pc & Pv & Pi & Pe & _).
  exists c, v, i, e. repeat (split; [assumption|]).
  unfold handleQuestionnaireSubmit.
  rewrite submit_split, V, Pc, Pv, Pi, Pe.
  repeat split; reflexivity.
Qed.

(** X6.  On valid entries [saveSettings] sets the two balances, the income
    and the expenses to the numbers entered, whatever they were, closes the
    dialog, and leaves the transactions and the goals as they are. *)
Theorem saveSettings_overwrites (w : World) :
  snd (validateUserData (ui w)) = true ->
  exists c v i e : number,
    parseFloat (UserData.chequingBalance (userData (ui w))) = Some c
    /\ parseFloat (UserData.savingsBalance (userData (ui w))) = Some v
    /\ parseFloat (UserData.monthlyIncome (userData (ui w))) = Some i
    /\ parseFloat (UserData.monthlyExpenses (userData (ui w))) = Some e
    /\ let s' := ui (saveSettings w) in
       chequingBalance s' = c /\ savingsBalance s' = v
       /\ income s' = i /\ expenses s' = e
       /\ transactions s' = transactions (ui w)
       /\ goals s' = goals (ui w)
       /\ showSettings s' = false.
Proof.
  intros V.
  destruct (validateUserData_true _ V) as (c & v & i & e & Pc & Pv & Pi & Pe & _).
  exists c, v, i, e. repeat (split; [assumption|]).
  unfold saveSettings. rewrite submit_split, V, Pc, Pv, Pi, Pe.
  repeat split; reflexivity.
Qed.

(** ** Deleting, and what a run of operations never does *)

Lemma find_none_unknown (id : number) (l : list Transaction.t) :
  ~ In id (map Transaction.id l) ->
  find (fun t => num_eqb (Transaction.id t) id) l = None.
Proof.
  induction l as [|t l IH]; simpl; intros N; [reflexivity|].
  destruct (num_eqb (Transaction.id t) id) eqn:E.
  - apply num_eqb_eq in E. tauto.
  - apply IH. tauto.
Qed.

(** X9.  [deleteTransaction] of an identifier that no transaction bears
    does nothing at all: no state change, nothing saved, no toast. *)
Theorem deleteTransaction_unknown_id (id : number) (w : World) :
  ~ In id (ids (ui w)) -> deleteTransaction id w = w.
Proof.
  intros N. unfold deleteTransaction.
  now rewrite (find_none_unknown id _ N).
Qed.

Lemma le_add_nonneg (x a : number) : 0 <= a -> x <= x + a.
Proof.
  intros H. apply Qcle_minus_iff.
  replace (x + a + - x) with a by ring. exact H.
Qed.

Lemma goal_grown_refl (l : list Goal.t) : Forall2 goal_grown l l.
Proof.
  induction l; constructor; trivial.
  repeat split. apply Qcle_refl.
Qed.

Lemma goal_grown_trans (l1 l2 l3 : list Goal.t) :
  Forall2 goal_grown l1 l2 -> Forall2 goal_grown l2 l3 ->
  Forall2 goal_grown l1 l3.
Proof.
  intros H. revert l3. induction H as [|g1 g2 l1 l2 G _ IH]; intros l3 H3;
    inversion H3; subst; constructor; [|now apply IH].
  destruct G as (a & b & c & d & e).
  match goal with H : goal_grown g2 _ |- _ =>
    destruct H as (a' & b' & c' & d' & e') end.
  repeat split; try congruence. eapply Qcle_trans; eassumption.
Qed.

Lemma grown_refl (s : State) : grown s s.
Proof.
  repeat split; try apply Qcle_refl. apply goal_grown_refl.
Qed.

Lemma grown_trans (s1 s2 s3 : State) : grown s1 s2 -> grown s2 s3 -> grown s1 s3.
Proof.
  intros (a & b & c) (a' & b' & c'). repeat split.
  - eapply Qcle_trans; eassumption.
  - eapply Qcle_trans; eassumption.
  - eapply goal_grown_trans; eassumption.
Qed.

Lemma raise_current_grown (a : number) (l : list Goal.t) :
  0 <= a -> Forall2 goal_grown l (map (raise_current a) l).
Proof.
  intros H. induction l; simpl; constructor; trivial.
  repeat split. simpl. now apply le_add_nonneg.
Qed.

Lemma updateFinances_grown (amount : number) (account : Account) (s s0 : State) :
  income s0 = income s -> expenses s0 = expenses s -> goals s0 = goals s ->
  grown s (updateFinances amount account s0).
Proof.
  intros I E G. unfold grown.
  rewrite updateFinances_income, updateFinances_expenses, updateFinances_goals.
  rewrite I, E, G.
  destruct (num_ltb 0 amount) eqn:L.
  - apply num_ltb_lt in L. apply Qclt_le_weak in L. repeat split.
    + now apply le_add_nonneg.
    + apply Qcle_refl.
    + now apply raise_current_grown.
  - apply num_ltb_ge in L. repeat split.
    + apply Qcle_refl.
    + unfold Qcminus. apply le_add_nonneg.
      apply Qcopp_le_compat in L. exact L.
    + apply raise_current_grown. apply Qcle_refl.
Qed.

Lemma addTransaction_grown (today : string) (w : World) :
  grown (ui w) (ui (addTransaction today w)).
Proof.
  unfold addTransaction.
  destruct (_ && _); [|apply grown_refl].
  destruct (negb _); [apply grown_refl|].
  destruct (parseFloat _) as [parsed|]; [|apply grown_refl].
  unfold toast, saveData, update, setNewTransaction. cbn [ui].
  destruct (updateFinances_grown
              (match NewTransaction.type (newTransaction (ui w)) with
               | income_type => parsed | expense_type => - parsed end)
              (NewTransaction.account (newTransaction (ui w))) (ui w)
              (setTransactions
                 (Transaction.mk
                    (num (Z.of_nat (List.length (transactions (ui w))) + 1))
                    (NewTransaction.date (newTransaction (ui w)))
                    (NewTransaction.description (newTransaction (ui w)))
                    (match NewTransaction.type (newTransaction (ui w)) with
                     | income_type => parsed | expense_type => - parsed end)
                    (NewTransaction.type (newTransaction (ui w)))
                    (NewTransaction.category (newTransaction (ui w)))
                    (NewTransaction.account (newTransaction (ui w)))
                  :: transactions (ui w)) (ui w))
              eq_refl eq_refl eq_refl) as (a & b & c).
  repeat split; assumption.
Qed.

Lemma deleteTransaction_grown (id : number) (w : World) :
  grown (ui w) (ui (deleteTransaction id w)).
Proof.
  unfold deleteTransaction.
  destruct (find _ _) as [t|]; [|apply grown_refl].
  unfold toast, saveData, update. cbn [ui].
  now apply updateFinances_grown.
Qed.

Lemma perform_grown (today : string) (w : World) (op : Operation) :
  grown (ui w) (ui (perform today w op)).
Proof.
  destruct op as [form|id]; simpl.
  - eapply grown_trans; [|apply addTransaction_grown].
    repeat split; try apply Qcle_refl. apply goal_grown_refl.
  - apply deleteTransaction_grown.
Qed.

(** X11.  Over any run of additions and deletions neither the income
    counter nor the expenses counter ever goes down, the goals stay the
    same in number, identifier, name, target and deadline, and no goal's
    [current] ever goes down. *)
Theorem run_never_lowers (today : string) (ops : list Operation) (w : World) :
  let s := ui w in
  let s' := ui (run today ops w) in
  income s <= income s' /\ expenses s <= expenses s'
  /\ List.length (goals s') = List.length (goals s)
  /\ Forall2 goal_grown (goals s) (goals s').
Proof.
  cbv zeta.
  assert (G : grown (ui w) (ui (run today ops w))).
  { revert w. induction ops as [|op ops IH]; intros w; simpl.
    - apply grown_refl.
    - eapply grown_trans; [apply perform_grown | apply IH]. }
  destruct G as (a & b & c). repeat split; trivial.
  symmetry. eapply Forall2_length. exact c.
Qed.

Lemma num_inj (x y : Z) : num x = num y -> x = y.
Proof.
  intros H. destruct (Z.eq_dec x y) as [E|N]; trivial.
  exfalso. exact (num_neq x y N H).
Qed.

Lemma addTransaction_transactions (today : string) (w : World) :
  transactions (ui (addTransaction today w)) = transactions (ui w)
  \/ exists t,
       Transaction.id t
       = num (Z.of_nat (List.length (transactions (ui w))) + 1)
       /\ transactions (ui (addTransaction today w))
          = t :: transactions (ui w).
Proof.
  unfold addTransaction.
  destruct (_ && _); [|now left].
  destruct (negb _); [now left|].
  destruct (parseFloat _) as [parsed|]; [|now left].
  right. eexists. split; [|unfold toast, saveData, update, setNewTransaction;
    cbn [ui transactions]; rewrite updateFinances_transactions; reflexivity].
  reflexivity.
Qed.

Lemma addTransaction_ids_compact (today : string) (w : World) :
  ids_compact (ui w) -> ids_compact (ui (addTransaction today w)).
Proof.
  intros [D B]. unfold ids_compact, ids in *.
  destruct (addTransaction_transactions today w) as [-> | (t & I & ->)];
    [now split|].
  cbn [map List.length]. rewrite I.
  set (n := Z.of_nat (List.length (transactions (ui w)))) in *.
  split.
  - constructor; [|exact D]. intros H.
    rewrite Forall_forall in B. destruct (B _ H) as (k & E & R).
    apply num_inj in E. lia.
  - constructor.
    + exists (n + 1)%Z. split; [reflexivity|]. lia.
    + eapply Forall_impl; [|exact B].
      intros i (k & E & R). exists k. split; [exact E|]. lia.
Qed.

(** X12.  From a state whose identifiers are distinct and lie between 1
    and the number of transactions (a fresh or a just onboarded page), any
    run made of additions only keeps the identifiers pairwise distinct. *)
Theorem ids_distinct_without_deletes (today : string)
        (forms : list NewTransaction.t) (w : World) :
  ids_compact (ui w) ->
  NoDup (ids (ui (run today (map AddTransaction forms) w))).
Proof.
  intros C.
  assert (K : ids_compact (ui (run today (map AddTransaction forms) w))).
  { revert w C. induction forms as [|f forms IH]; intros w C; simpl; trivial.
    apply IH. apply addTransaction_ids_compact.
    destruct C as [D B]. split; assumption. }
  exact (proj1 K).
Qed.

(** ** What is saved *)

Lemma document_transactions (s s' : State) :
  document s = document s' ->
  List.length (transactions s) = List.length (transactions s').
Proof.
  unfold document. intros E. injection E as _ _ _ _ T _ _ _ _ _ _.
  apply (f_equal (@List.length JSON)) in T. now rewrite !length_map in T.
Qed.

(** X13.  The document a successful [addTransaction] saves is the one of
    the state before the addition ([saveData] reads the closure of the
    render): the page shows the new transaction, and the saved document,
    which lacks it, is not the document of the state the page shows. *)
Theorem addTransaction_saves_the_state_before (today : string) (w : World) :
  valid_form (newTransaction (ui w)) = true ->
  let w' := addTransaction today w in
  exists t : Transaction.t,
    transactions (ui w') = t :: transactions (ui w)
    /\ setItem_calls w' = document (ui w) :: setItem_calls w
    /\ document (ui w) <> document (ui w').
Proof.
  intros V w'. subst w'.
  destruct (addTransaction_accepts today w V) as (parsed & _ & _ & E).
  cbv zeta in E.
  assert (S : setItem_calls (addTransaction today w)
              = document (ui w) :: setItem_calls w) by (rewrite E; reflexivity).
  assert (T : exists t, transactions (ui (addTransaction today w))
                        = t :: transactions (ui w)).
  { rewrite E. eexists. unfold toast, saveData, update, setNewTransaction.
    cbn [ui transactions]. rewrite updateFinances_transactions. reflexivity. }
  destruct T as (t & T).
  exists t. split; [exact T|]. split; [exact S|].
  intros D. apply document_transactions in D. rewrite T in D.
  cbn [List.length] in D. lia.
Qed.

(** X4.  The document a successful [handleQuestionnaireSubmit] saves is
    the one of the state before it: the page holds the four seed
    transactions, and unless the page held four transactions before, the
    saved document is not the document of the state the page shows. *)
Theorem onboarding_is_saved_before_it_applies (today : string) (w : World) :
  snd (validateUserData (ui w)) = true ->
  let w' := handleQuestionnaireSubmit today w in
  setItem_calls w' = document (ui w) :: setItem_calls w
  /\ List.length (transactions (ui w')) = 4%nat
  /\ (List.length (transactions (ui w)) <> 4%nat ->
      document (ui w) <> document (ui w')).
Proof.
  intros V w'. subst w'.
  destruct (validateUserData_true _ V) as (c & v & i & e & Pc & Pv & Pi & Pe & _).
  assert (S : setItem_calls (handleQuestionnaireSubmit today w)
              = document (ui w) :: setItem_calls w
              /\ List.length (transactions (ui (handleQuestionnaireSubmit today w))) = 4%nat).
  { unfold handleQuestionnaireSubmit.
    rewrite submit_split, V, Pc, Pv, Pi, Pe. split; reflexivity. }
  destruct S as [S N].
  split; [exact S|]. split; [exact N|].
  intros L D. apply document_transactions in D. congruence.
Qed.

Lemma le_mul_pos_iff (z x y : number) : 0 < z -> (x <= y <-> x * z <= y * z).
Proof.
  intros P. split.
  - intros H. apply Qcmult_le_compat_r; trivial. now apply Qclt_le_weak.
  - now apply Qcmult_lt_0_le_reg_r.
Qed.

Lemma clamp_top (x h : number) :
  0 < h -> (Math_min (Math_max x 0) h = h <-> h <= x).
Proof.
  intros P. unfold Math_min, Math_max.
  destruct (num_ltb x 0) eqn:N.
  - apply num_ltb_lt in N.
    assert (G : num_ltb h 0 = false)
      by (apply num_ltb_ge; now apply Qclt_le_weak).
    rewrite G. split.
    + intros <-. exfalso. exact (Qclt_not_eq _ _ P eq_refl).
    + intros H. exfalso.
      exact (Qclt_not_le _ _ P (Qcle_trans _ _ _ H (Qclt_le_weak _ _ N))).
  - destruct (num_ltb h x) eqn:L.
    + apply num_ltb_lt in L. split; trivial. intros _. now apply Qclt_le_weak.
    + apply num_ltb_ge in L. split.
      * intros ->. apply Qcle_refl.
      * intros H. now apply Qcle_antisym.
Qed.

(** ** The health score and the dashboard views *)

Lemma weighted_score (income expenses savings investments debt : number) :
  income <> 0 ->
  exists W : number,
    calculateFinancialHealth income expenses savings investments debt
    = Math_min (Math_max (W * num 100) 0) (num 100)
    /\ W * income
       = savings * num 30 + investments * num 20
         + (income - debt) * num 25 + (income - expenses) * num 25.
Proof.
  intros NZ. unfold calculateFinancialHealth.
  apply num_eqb_neq in NZ. rewrite NZ. apply num_eqb_neq in NZ.
  cbv zeta. rewrite Qcplus_0_l. eexists. split; [reflexivity|].
  field. exact NZ.
Qed.

Lemma full_marks_condition (i e s : number) :
  0 < i -> 0 <= s -> e <= i ->
  i <= s * num 30 + 0 * num 20 + (i - 0) * num 25 + (i - e) * num 25.
Proof.
  intros P S E. to_Q. lra.
Qed.

(** X16.  In a state without investments or cryptocurrencies, with an
    income that is positive and finite (at most [Number.MAX_VALUE]),
    balances that are not negative and expenses not above the income, the
    health effect sets the score to 100. *)
Theorem healthEffect_full_marks (s : State) :
  investments s = [] -> cryptocurrencies s = [] ->
  0 < income s -> income s <= Number_MAX_VALUE ->
  0 <= savingsBalance s -> 0 <= chequingBalance s ->
  expenses s <= income s ->
  financialHealthScore (healthEffect s) = num 100.
Proof.
  intros I C P _ S B E. unfold healthEffect. rewrite I, C.
  cbn [fold_left setFinancialHealthScore financialHealthScore].
  assert (D : Math_max 0 (- chequingBalance s) = 0).
  { unfold Math_max. destruct (num_ltb 0 (- chequingBalance s)) eqn:L; trivial.
    apply num_ltb_lt in L. exfalso. to_Q. lra. }
  rewrite D, Qcplus_0_l.
  assert (NZ : income s <> 0) by (intros Z; rewrite Z in P; discriminate).
  assert (H100 : 0 < num 100) by (apply num_pos; lia).
  destruct (weighted_score (income s) (expenses s) (savingsBalance s) 0 0 NZ)
    as (W & -> & Eq).
  apply (clamp_top _ _ H100).
  rewrite <- (Qcmult_1_l (num 100)) at 1.
  apply (le_mul_pos_iff _ 1 W H100).
  apply (le_mul_pos_iff (income s) 1 W P).
  rewrite Eq, Qcmult_1_l. now apply full_marks_condition.
Qed.






Lemma add_at_length (i : nat) (x : number) (l : list number) :
  List.length (add_at i x l) = List.length l.
Proof.
  revert i. induction l as [|y l IH]; intros [|i]; simpl; auto.
Qed.

Lemma add_at_nth (i k : nat) (x : number) (l : list number) :
  (i < List.length l)%nat ->
  nth k (add_at i x l) 0 = nth k l 0 + (if (k =? i)%nat then x else 0).
Proof.
  revert i k. induction l as [|y l IH]; intros i k L; simpl in L; [lia|].
  destruct i as [|i], k as [|k]; simpl.
  - reflexivity.
  - now rewrite Qcplus_0_r.
  - now rewrite Qcplus_0_r.
  - apply IH. lia.
Qed.

Section CashFlow.
Variables (currentDate : YearMonth) (dateOf : string -> option YearMonth).

Abbreviation step := (cashFlowStep currentDate dateOf).
Abbreviation bucket := (in_bucket currentDate dateOf).

Lemma cashFlowStep_nth (inc exp : list number) (t : Transaction.t) (k : nat) :
  List.length inc = 6%nat -> List.length exp = 6%nat -> (k < 6)%nat ->
  List.length (fst (step (inc, exp) t)) = 6%nat
  /\ List.length (snd (step (inc, exp) t)) = 6%nat
  /\ nth k (fst (step (inc, exp) t)) 0
     = nth k inc 0
       + (if bucket k t && is_income t then Transaction.amount t else 0)
  /\ nth k (snd (step (inc, exp) t)) 0
     = nth k exp 0
       + (if bucket k t && negb (is_income t)
          then Math_abs (Transaction.amount t) else 0).
Proof.
  intros Li Le K. unfold cashFlowStep, in_bucket, is_income.
  destruct (dateOf (Transaction.date t)) as [d|]; cbn [fst snd andb].
  2:{ rewrite !Qcplus_0_r. auto. }
  destruct ((0 <=? monthIndex currentDate d)%Z
            && (monthIndex currentDate d <? 6)%Z) eqn:W.
  - apply andb_true_iff in W as [W0 W6].
    apply Z.leb_le in W0. apply Z.ltb_lt in W6.
    assert (M : (Z.to_nat (monthIndex currentDate d) < 6)%nat) by lia.
    assert (Q : (monthIndex currentDate d =? Z.of_nat k)%Z
                = (k =? Z.to_nat (monthIndex currentDate d))%nat).
    { destruct (Nat.eqb_spec k (Z.to_nat (monthIndex currentDate d))) as [->|N].
      - apply Z.eqb_eq. lia.
      - apply Z.eqb_neq. lia. }
    rewrite Q.
    destruct (Transaction.type t); cbn [fst snd];
      rewrite ?add_at_length, ?add_at_nth by lia;
      rewrite ?andb_true_r, ?andb_false_r, ?Qcplus_0_r; auto.
  - assert (Q : (monthIndex currentDate d =? Z.of_nat k)%Z = false).
    { apply Z.eqb_neq. intros E.
      apply andb_false_iff in W as [W|W];
        [apply Z.leb_gt in W | apply Z.ltb_ge in W]; lia. }
    rewrite Q. cbn [fst snd andb]. rewrite !Qcplus_0_r. auto.
Qed.

Lemma total_filter_cons (f : Transaction.t -> number) (p : Transaction.t -> bool)
      (t : Transaction.t) (l : list Transaction.t) :
  total f (filter p (t :: l)) = (if p t then f t else 0) + total f (filter p l).
Proof.
  simpl. destruct (p t); simpl; [reflexivity | now rewrite Qcplus_0_l].
Qed.

Lemma fold_cashFlow (l : list Transaction.t) :
  forall (inc exp : list number) (k : nat),
    List.length inc = 6%nat -> List.length exp = 6%nat -> (k < 6)%nat ->
    let r := fold_left step l (inc, exp) in
    List.length (fst r) = 6%nat /\ List.length (snd r) = 6%nat
    /\ nth k (fst r) 0
       = nth k inc 0
         + total Transaction.amount
             (filter (fun t => bucket k t && is_income t) l)
    /\ nth k (snd r) 0
       = nth k exp 0
         + total (fun t => Math_abs (Transaction.amount t))
             (filter (fun t => bucket k t && negb (is_income t)) l).
Proof.
  induction l as [|t l IH]; intros inc exp k Li Le K r; subst r.
  - simpl. rewrite !Qcplus_0_r. auto.
  - cbn [fold_left].
    destruct (cashFlowStep_nth inc exp t k Li Le K) as (Li' & Le' & Ni & Ne).
    destruct (step (inc, exp) t) as [inc' exp'] eqn:S. cbn [fst snd] in *.
    destruct (IH inc' exp' k Li' Le' K) as (A & B & C & D).
    rewrite !total_filter_cons.
    split; [exact A|]. split; [exact B|]. split.
    + rewrite C, Ni. ring.
    + rewrite D, Ne. ring.
Qed.

End CashFlow.

(** X20.  Each of the three series of [getCashFlowData] has six entries.
    Entry [k] of the income series is the sum of the amounts of the
    income transactions whose month offset is [k]; entry [k] of the
    expenses series is the sum of the absolute amounts of the expense
    transactions of that month; entry [k] of the savings series is their
    difference. *)
Theorem getCashFlowData_buckets (currentDate : YearMonth)
        (dateOf : string -> option YearMonth) (s : State) (k : nat) :
  (k < 6)%nat ->
  let view := getCashFlowData currentDate dateOf s in
  let here := in_bucket currentDate dateOf k in
  List.length (incomeData view) = 6%nat
  /\ List.length (expenseData view) = 6%nat
  /\ List.length (savingsData view) = 6%nat
  /\ nth k (incomeData view) 0
     = total Transaction.amount
         (filter (fun t => here t && is_income t) (transactions s))
  /\ nth k (expenseData view) 0
     = total (fun t => Math_abs (Transaction.amount t))
         (filter (fun t => here t && negb (is_income t)) (transactions s))
  /\ nth k (savingsData view) 0
     = nth k (incomeData view) 0 - nth k (expenseData view) 0.
Proof.
  intros K view here. subst view here. unfold getCashFlowData.
  pose proof (fold_cashFlow currentDate dateOf (transactions s)
                (repeat 0 6) (repeat 0 6) k eq_refl eq_refl K) as H.
  cbv zeta in H.
  destruct (fold_left _ _ _) as [inc exp]. cbn [fst snd] in H.
  destruct H as (A & B & C & D).
  cbn [incomeData expenseData savingsData].
  split; [exact A|]. split; [exact B|]. split; [reflexivity|].
  assert (Z : nth k (repeat (0 : number) 6) 0 = 0).
  { do 6 (destruct k as [|k]; [reflexivity|]). lia. }
  rewrite Z, Qcplus_0_l in C, D.
  split; [exact C|]. split; [exact D|].
  do 6 (destruct k as [|k]; [reflexivity|]). lia.
Qed.

Lemma cashFlowStep_outside (currentDate : YearMonth)
      (dateOf : string -> option YearMonth)
      (arrays : list number * list number) (t : Transaction.t) :
  in_window currentDate dateOf t = false ->
  cashFlowStep currentDate dateOf arrays t = arrays.
Proof.
  unfold in_window, cashFlowStep. destruct arrays as [inc exp].
  destruct (dateOf (Transaction.date t)) as [d|]; [|reflexivity].
  now intros ->.
Qed.

(** X21.  A transaction whose date is invalid or whose month offset is
    outside 0..5 (older than the six months shown, or later than the
    current month) changes nothing in what [getCashFlowData] returns,
    wherever it stands in the list. *)
Theorem getCashFlowData_outside_window (currentDate : YearMonth)
        (dateOf : string -> option YearMonth) (s s' : State)
        (before after : list Transaction.t) (t : Transaction.t) :
  transactions s = (before ++ t :: after)%list ->
  transactions s' = (before ++ after)%list ->
  in_window currentDate dateOf t = false ->
  getCashFlowData currentDate dateOf s = getCashFlowData currentDate dateOf s'.
Proof.
  intros E E' O. unfold getCashFlowData. rewrite E, E'.
  rewrite !fold_left_app. cbn [fold_left].
  now rewrite (cashFlowStep_outside _ _ _ _ O).
Qed.

(** ** The further properties at concrete inputs *)

(** X2 on a fresh page, whose name entry is empty. *)
Lemma handleQuestionnaireSubmit_rejects_empty_form :
  let w := boot "2024-01-15" in
  let w' := handleQuestionnaireSubmit "2024-01-15" w in
  invalid_userData (userData (ui w))
  /\ errors (ui w') <> Errors.none
  /\ setItem_calls w' = setItem_calls w
  /\ toast_calls w' = toast_calls w.
Proof.
  intros w w'.
  assert (I : invalid_userData (userData (ui w))) by (left; reflexivity).
  split; [exact I|].
  destruct (handleQuestionnaireSubmit_rejects "2024-01-15" w I)
    as (_ & E & S & T).
  split; [exact E|]. split; [exact S | exact T].
Defined.

(** X5 on a fresh page. *)
Lemma saveSettings_rejects_empty_form :
  let w := boot "2024-01-15" in
  let w' := saveSettings w in
  invalid_userData (userData (ui w))
  /\ errors (ui w') <> Errors.none
  /\ setItem_calls w' = setItem_calls w.
Proof.
  intros w w'.
  assert (I : invalid_userData (userData (ui w))) by (left; reflexivity).
  split; [exact I|].
  destruct (saveSettings_rejects w I) as (_ & E & S & _).
  split; [exact E | exact S].
Defined.

(** X3 at the entries of the scenario. *)
Lemma handleQuestionnaireSubmit_seeds_alex :
  let w := boot "2024-01-15" |> update (setUserData alex) in
  let w' := handleQuestionnaireSubmit "2024-01-15" w in
  snd (validateUserData (ui w)) = true
  /\ exists c v i e : number,
       parseFloat "1000" = Some c /\ parseFloat "500" = Some v
       /\ parseFloat "3000" = Some i /\ parseFloat "2000" = Some e
       /\ transactions (ui w') = seeds "2024-01-15" c v i e.
Proof.
  intros w w'.
  assert (V : snd (validateUserData (ui w)) = true) by (vm_compute; reflexivity).
  split; [exact V|].
  destruct (handleQuestionnaireSubmit_seeds "2024-01-15" w V)
    as (c & v & i & e & Pc & Pv & Pi & Pe & R).
  cbv zeta in R. destruct R as (_ & _ & _ & _ & T & _).
  exists c, v, i, e. repeat (split; [assumption|]). exact T.
Defined.

(** X6 after the scenario's onboarding and one expense. *)
Lemma saveSettings_overwrites_alex :
  let w := onboarded "2024-01-15"
           |> update (setNewTransaction (coffee "2024-01-15"))
           |> addTransaction "2024-01-15" in
  snd (validateUserData (ui w)) = true
  /\ exists c : number,
       parseFloat "1000" = Some c
       /\ chequingBalance (ui (saveSettings w)) = c
       /\ transactions (ui (saveSettings w)) = transactions (ui w).
Proof.
  intros w.
  assert (V : snd (validateUserData (ui w)) = true) by (vm_compute; reflexivity).
  split; [exact V|].
  destruct (saveSettings_overwrites w V)
    as (c & v & i & e & Pc & _ & _ & _ & R).
  cbv zeta in R. destruct R as (C & _ & _ & _ & T & _).
  exists c. split; [exact Pc|]. split; [exact C | exact T].
Defined.

(** X9 at the identifier 9 on the onboarded page. *)
Lemma deleteTransaction_unknown_id_9 :
  let w := onboarded "2024-01-15" in
  ~ In (num 9) (ids (ui w)) /\ deleteTransaction (num 9) w = w.
Proof.
  intros w.
  assert (N : ~ In (num 9) (ids (ui w))).
  { change (~ In (num 9) [num 1; num 2; num 3; num 4]). simpl.
    intros [H|[H|[H|[H|[]]]]]; revert H; apply num_neq; lia. }
  split; [exact N|]. exact (deleteTransaction_unknown_id (num 9) w N).
Defined.

(** X12 for two additions on the onboarded page. *)
Lemma ids_distinct_without_deletes_onboarded :
  let d := "2024-01-15" in
  ids_compact (ui (onboarded d))
  /\ NoDup (ids (ui (run d (map AddTransaction [coffee d; paycheque d])
                       (onboarded d)))).
Proof.
  intros d.
  assert (C : ids_compact (ui (onboarded d))).
  { split.
    - change (NoDup [num 1; num 2; num 3; num 4]).
      repeat constructor; simpl; intuition;
        match goal with H : num _ = num _ |- _ =>
          revert H; apply num_neq; lia end.
    - change (Forall (fun i => exists k : Z, i = num k /\ (1 <= k <= 4)%Z)
                     [num 1; num 2; num 3; num 4]).
      repeat constructor; eexists; (split; [reflexivity | lia]). }
  split; [exact C|].
  exact (ids_distinct_without_deletes d [coffee d; paycheque d] (onboarded d) C).
Defined.

(** X13 at the Coffee form on the onboarded page. *)
Lemma addTransaction_saves_the_state_before_coffee :
  let d := "2024-01-15" in
  let w := onboarded d |> update (setNewTransaction (coffee d)) in
  valid_form (newTransaction (ui w)) = true
  /\ exists t : Transaction.t,
       transactions (ui (addTransaction d w)) = t :: transactions (ui w)
       /\ hd_error (setItem_calls (addTransaction d w)) = Some (document (ui w)).
Proof.
  intros d w.
  assert (V : valid_form (newTransaction (ui w)) = true) by reflexivity.
  split; [exact V|].
  destruct (addTransaction_saves_the_state_before d w V) as (t & T & S & _).
  exists t. split; [exact T|]. rewrite S. reflexivity.
Defined.

(** X4 at the entries of the scenario, on a fresh page: what is saved is
    the document of the fresh page. *)
Lemma onboarding_is_saved_before_it_applies_alex :
  let d := "2024-01-15" in
  let w := boot d |> update (setUserData alex) in
  (snd (validateUserData (ui w)) = true
   /\ List.length (transactions (ui w)) <> 4%nat)
  /\ setItem_calls (handleQuestionnaireSubmit d w) = [document (ui w)]
  /\ document (ui w) <> document (ui (handleQuestionnaireSubmit d w)).
Proof.
  intros d w.
  assert (V : snd (validateUserData (ui w)) = true) by (vm_compute; reflexivity).
  assert (N : List.length (transactions (ui w)) <> 4%nat) by discriminate.
  split; [split; [exact V | exact N]|].
  destruct (onboarding_is_saved_before_it_applies d w V) as (S & _ & D).
  split; [exact S | exact (D N)].
Defined.

(** X16 on the onboarded page. *)
Lemma healthEffect_full_marks_onboarded :
  let s := ui (onboarded "2024-01-15") in
  (investments s = [] /\ cryptocurrencies s = [] /\ 0 < income s
   /\ income s <= Number_MAX_VALUE
   /\ 0 <= savingsBalance s /\ 0 <= chequingBalance s
   /\ expenses s <= income s)
  /\ financialHealthScore (healthEffect s) = num 100.
Proof.
  intros s.
  assert (I : investments s = []) by reflexivity.
  assert (C : cryptocurrencies s = []) by reflexivity.
  assert (P : 0 < income s) by (vm_compute; reflexivity).
  assert (F : income s <= Number_MAX_VALUE) by (vm_compute; discriminate).
  assert (S : 0 <= savingsBalance s) by (vm_compute; discriminate).
  assert (B : 0 <= chequingBalance s) by (vm_compute; discriminate).
  assert (E : expenses s <= income s) by (vm_compute; discriminate).
  split; [repeat split; assumption|].
  exact (healthEffect_full_marks s I C P F S B E).
Defined.



(** X20 at the last bucket, every date being read as January 2024. *)
Lemma getCashFlowData_buckets_january :
  let now := mkYearMonth 2024 0 in
  let dateOf := fun _ : string => Some (mkYearMonth 2024 0) in
  let s := ui (onboarded "2024-01-15") in
  (5 < 6)%nat
  /\ nth 5 (savingsData (getCashFlowData now dateOf s)) 0
     = nth 5 (incomeData (getCashFlowData now dateOf s)) 0
       - nth 5 (expenseData (getCashFlowData now dateOf s)) 0.
Proof.
  intros now dateOf s.
  assert (K : (5 < 6)%nat) by lia.
  split; [exact K|].
  pose proof (getCashFlowData_buckets now dateOf s 5 K) as R.
  cbv zeta in R. destruct R as (_ & _ & _ & _ & _ & S). exact S.
Defined.

(** X21 for a transaction dated a year before the current month. *)
Lemma getCashFlowData_outside_window_last_year :
  let now := mkYearMonth 2024 0 in
  let dateOf := fun date : string =>
    if String.eqb date "2023-01-15" then Some (mkYearMonth 2023 0)
    else Some (mkYearMonth 2024 0) in
  let s' := ui (onboarded "2024-01-15") in
  let old := Transaction.mk (num 5) "2023-01-15" "Rent" (- num 900)
               expense_type "Rent" chequing in
  let s := setTransactions (old :: transactions s') s' in
  in_window now dateOf old = false
  /\ getCashFlowData now dateOf s = getCashFlowData now dateOf s'.
Proof.
  intros now dateOf s' old s.
  assert (O : in_window now dateOf old = false) by reflexivity.
  split; [exact O|].
  exact (getCashFlowData_outside_window now dateOf s s' [] (transactions s')
           old eq_refl eq_refl O).
Defined.


(** X10 at the Coffee form on the onboarded page. *)
Lemma deleteTransaction_after_addTransaction_coffee :
  let d := "2024-01-15" in
  let w := onboarded d |> update (setNewTransaction (coffee d)) in
  let w' := w |> addTransaction d |> deleteTransaction (num 5) in
  valid_form (newTransaction (ui w)) = true
  /\ exists parsed : number,
       parseFloat "5" = Some parsed
       /\ (- parsed < 0 ->
           income (ui w') = income (ui w) - - parsed
           /\ expenses (ui w') = expenses (ui w) - - parsed).
Proof.
  intros d w w'.
  assert (V : valid_form (newTransaction (ui w)) = true) by reflexivity.
  split; [exact V|].
  destruct (deleteTransaction_after_addTransaction d w V) as (parsed & P & R).
  cbv zeta in R. destruct R as (_ & R).
  exists parsed. split; [exact P|].
  intros N. destruct (R N) as (I & X & _). split; [exact I | exact X].
Defined.

